(** * CSRS grade visualizer: the extraction and GWA pipeline of [app.py]

    A shallow embedding of the two functions of the processing engine,
    [parse_csrs_file] and [calculate_gwa], together with the parts of
    Python, BeautifulSoup and pandas they rest on, and the properties
    of the pipeline proved over that embedding.

    Conventions.
    - A Python [str] is a [string]; an [ascii] stands for the code point
      of the same number, so the strings covered are those whose code
      points lie below 256.
    - A Python [float] is an IEEE 754 binary64 value, a [spec_float]
      operated at precision 53 and maximal exponent 1024.
    - A call that may raise returns a [result].
    - The columns read from the document are of object dtype: they hold
      [str] values, and [float] NaN where a record has no such key.
    - A numeric column is an array of int64, uint64 or float64, as
      [pd.to_numeric] decides over the whole column; integer arithmetic
      wraps around at 64 bits, and a float column is summed as numpy
      sums it, pairwise.
    - [BeautifulSoup(uploaded_file, 'lxml')], the parsing of the HTML
      text, is not part of the embedding: [parse_csrs_file] starts from
      the tree. *)

From Stdlib Require Import List String Ascii ZArith Bool Lia Sorted.
From Stdlib Require Import Floats.SpecFloat.
Import ListNotations.

Local Open Scope string_scope.
Local Open Scope list_scope.

(** ** Exceptions *)

Inductive exn : Type :=
| KeyError (key : string)
| TypeError.

Inductive result (A : Type) : Type :=
| Ok (a : A)
| Raise (e : exn).

Arguments Ok {A} a.
Arguments Raise {A} e.

Definition bind {A B : Type} (r : result A) (k : A -> result B) : result B :=
  match r with
  | Ok a => k a
  | Raise e => Raise e
  end.

Notation "x <- r ;; k" := (bind r (fun x => k))
  (at level 61, r at next level, right associativity).

(** ** Python strings *)

Module Str.

Definition code (c : ascii) : nat := nat_of_ascii c.

Definition between (lo hi : nat) (c : ascii) : bool :=
  (lo <=? code c)%nat && (code c <=? hi)%nat.

(** [str.isspace] on one character, for the code points below 256. *)
Definition isspace (c : ascii) : bool :=
  between 9 13 c || between 28 32 c
  || (code c =? 133)%nat || (code c =? 160)%nat.

Fixpoint lstrip (s : string) : string :=
  match s with
  | String c s' => if isspace c then lstrip s' else s
  | EmptyString => EmptyString
  end.

Fixpoint rstrip (s : string) : string :=
  match s with
  | String c s' =>
      match rstrip s' with
      | EmptyString => if isspace c then EmptyString else String c EmptyString
      | r => String c r
      end
  | EmptyString => EmptyString
  end.

(** [s.strip()] *)
Definition strip (s : string) : string := rstrip (lstrip s).

(** [s.replace(c, '')] for a one-character [c]. *)
Fixpoint remove (c : ascii) (s : string) : string :=
  match s with
  | String d s' => if Ascii.eqb d c then remove c s' else String d (remove c s')
  | EmptyString => EmptyString
  end.

(** [s.startswith(p)] *)
Fixpoint startswith (p s : string) : bool :=
  match p, s with
  | EmptyString, _ => true
  | String a p', String b s' => Ascii.eqb a b && startswith p' s'
  | String _ _, EmptyString => false
  end.

(** [sub in s] *)
Fixpoint contains (sub s : string) : bool :=
  startswith sub s
  || match s with
     | String _ s' => contains sub s'
     | EmptyString => false
     end.

(** The lower-case mapping of the regular expression engine, on the
    code points below 256: A-Z and the accented capitals. *)
Definition tolower (c : ascii) : ascii :=
  if between 65 90 c || (between 192 222 c && negb (code c =? 215)%nat)
  then ascii_of_nat (code c + 32)
  else c.

(** A literal pattern matched at the start of [s] under
    [re.IGNORECASE]. *)
Fixpoint match_ignorecase (p s : string) : bool :=
  match p, s with
  | EmptyString, _ => true
  | String a p', String b s' =>
      Ascii.eqb (tolower a) (tolower b) && match_ignorecase p' s'
  | String _ _, EmptyString => false
  end.

(** [re.search] for a pattern of the shape [^(p1|p2|...)] compiled
    with [re.IGNORECASE]: the anchor pins the match to position 0. *)
Definition search_anchored (alternatives : list string) (s : string) : bool :=
  existsb (fun p => match_ignorecase p s) alternatives.

End Str.

(** ** binary64 *)

Module Float64.

Definition float : Type := spec_float.

Definition prec : Z := 53.
Definition emax : Z := 1024.

Definition nan : float := S754_nan.
Definition zero : float := S754_zero false.
Definition inf (negative : bool) : float := S754_infinity negative.

Definition add : float -> float -> float := SFadd prec emax.
Definition mul : float -> float -> float := SFmul prec emax.
Definition div : float -> float -> float := SFdiv prec emax.
Definition ltb : float -> float -> bool := SFltb.

(** The nearest binary64 value of an integer. *)
Definition of_Z (z : Z) : float := binary_normalize prec emax z 0 false.

Definition isnan (x : float) : bool :=
  match x with
  | S754_nan => true
  | _ => false
  end.

Definition is_zero (x : float) : bool :=
  match x with
  | S754_zero _ => true
  | _ => false
  end.

Definition neg (x : float) : float := SFopp x.

End Float64.

Import Float64.

(** ** pandas: numeric coercion, element-wise operations, reductions *)

Module Pandas.

(** *** [pd.to_numeric(..., errors='coerce')] on strings

    The conversion of one string follows pandas' [floatify]: the
    decimal reader [precise_xstrtod] first, the spellings of infinity
    when it fails. *)

Definition isspace_ascii (c : ascii) : bool :=
  (Str.code c =? 32)%nat || Str.between 9 13 c.

Definition isdigit_ascii (c : ascii) : bool := Str.between 48 57 c.

Definition digit (c : ascii) : Z := Z.of_nat (Str.code c - 48).

Definition max_digits : nat := 17.

Fixpoint skip_space (s : string) : string :=
  match s with
  | String c s' => if isspace_ascii c then skip_space s' else s
  | EmptyString => EmptyString
  end.

Definition read_sign (s : string) : bool * string :=
  match s with
  | String "-" s' => (true, s')
  | String "+" s' => (false, s')
  | _ => (false, s)
  end.

(** The digits before the decimal point: the first [max_digits] are
    accumulated, each further one raises the decimal exponent. *)
Fixpoint integer_digits (s : string) (number : float) (num_digits : nat)
    (exponent : Z) : float * nat * Z * string :=
  match s with
  | String c s' =>
      if isdigit_ascii c then
        if (num_digits <? max_digits)%nat
        then integer_digits s' (add (mul number (of_Z 10)) (of_Z (digit c)))
               (S num_digits) exponent
        else integer_digits s' number num_digits (exponent + 1)
      else (number, num_digits, exponent, s)
  | EmptyString => (number, num_digits, exponent, s)
  end.

(** The digits after the decimal point: accumulated while fewer than
    [max_digits] have been read, consumed and dropped afterwards. *)
Fixpoint decimal_digits (s : string) (number : float) (num_digits : nat)
    (num_decimals : Z) : float * nat * Z * string :=
  match s with
  | String c s' =>
      if isdigit_ascii c then
        if (num_digits <? max_digits)%nat
        then decimal_digits s' (add (mul number (of_Z 10)) (of_Z (digit c)))
               (S num_digits) (num_decimals + 1)
        else decimal_digits s' number num_digits num_decimals
      else (number, num_digits, num_decimals, s)
  | EmptyString => (number, num_digits, num_decimals, s)
  end.

(** The digits of the exponent, at most [max_digits] of them. *)
Fixpoint exponent_digits (s : string) (n : Z) (num_digits : nat)
    : Z * nat * string :=
  match s with
  | String c s' =>
      if isdigit_ascii c && (num_digits <? max_digits)%nat
      then exponent_digits s' (n * 10 + digit c) (S num_digits)
      else (n, num_digits, s)
  | EmptyString => (n, num_digits, s)
  end.

(** The cached powers of ten [e[k]], each the nearest binary64. *)
Definition e (k : Z) : float := of_Z (10 ^ k).

Definition is_exponent_mark (c : ascii) : bool :=
  Ascii.eqb c "e" || Ascii.eqb c "E".

(** The exponent part: 0 and the input unchanged when there is no
    mark, [None] when the mark is followed by no digit (the reader
    then stops on the mark, which is not the end of the string).  The
    flag tells whether a mark was read. *)
Definition read_exponent (s : string) : option (Z * string * bool) :=
  match s with
  | String c s' =>
      if is_exponent_mark c then
        let '(negative, s1) := read_sign s' in
        let '(n, num_digits, s2) := exponent_digits s1 0 0 in
        match num_digits with
        | O => None
        | S _ => Some (if negative then (- n)%Z else n, s2, true)
        end
      else Some (0%Z, s, false)
  | EmptyString => Some (0%Z, s, false)
  end.

(** Scaling by the decimal exponent; [None] is the range error. *)
Definition scale (number : float) (exponent : Z) : option float :=
  if (308 <? exponent)%Z then None
  else
    let number :=
      if (0 <? exponent)%Z then mul number (e exponent)
      else if (exponent <? -308)%Z then
        if (exponent <? -616)%Z then zero
        else div (div number (e (-308 - exponent))) (e 308)
      else div number (e (- exponent)) in
    match number with
    | S754_infinity _ => None
    | _ => Some number
    end.

(** [precise_xstrtod] with the whole string required to be consumed;
    [None] when the string is not a decimal numeral.  Beside the value
    it returns [maybe_int]: the numeral has neither a decimal point nor
    an exponent. *)
Definition to_double (s : string) : option (float * bool) :=
  let '(negative, s1) := read_sign (skip_space s) in
  let '(number, num_digits, exponent, s2) := integer_digits s1 zero 0 0 in
  let '(number, num_digits, exponent, s3, point) :=
    match s2 with
    | String "." s' =>
        let '(number, num_digits, num_decimals, s'') :=
          decimal_digits s' number num_digits 0 in
        (number, num_digits, (exponent - num_decimals)%Z, s'', true)
    | _ => (number, num_digits, exponent, s2, false)
    end in
  match num_digits with
  | O => None
  | S _ =>
      let number := if negative then neg number else number in
      match read_exponent s3 with
      | None => None
      | Some (n, s4, mark) =>
          match skip_space s4 with
          | EmptyString =>
              match scale number (exponent + n) with
              | Some x => Some (x, negb point && negb mark)
              | None => None
              end
          | String _ _ => None
          end
      end
  end.

Definition lower_ascii (c : ascii) : ascii :=
  if Str.between 65 90 c then ascii_of_nat (Str.code c + 32) else c.

Fixpoint strcasecmp_eq (a b : string) : bool :=
  match a, b with
  | EmptyString, EmptyString => true
  | String x a', String y b' =>
      Ascii.eqb (lower_ascii x) (lower_ascii y) && strcasecmp_eq a' b'
  | _, _ => false
  end.

Definition floatify (s : string) : option (float * bool) :=
  match to_double s with
  | Some r => Some r
  | None =>
      if strcasecmp_eq s "inf" || strcasecmp_eq s "+inf"
         || strcasecmp_eq s "infinity" || strcasecmp_eq s "+infinity"
      then Some (inf false, false)
      else if strcasecmp_eq s "-inf" || strcasecmp_eq s "-infinity"
      then Some (inf true, false)
      else None
  end.

(** [int(val)] for a string that the reader took for an integer: an
    optional sign and decimal digits between blanks, read exactly. *)
Fixpoint digits_value (s : string) (n : Z) : Z :=
  match s with
  | String c s' => if isdigit_ascii c then digits_value s' (n * 10 + digit c) else n
  | EmptyString => n
  end.

Definition int (s : string) : Z :=
  let '(negative, s1) := read_sign (skip_space s) in
  let n := digits_value s1 0 in
  if negative then (- n)%Z else n.

(** What [maybe_convert_numeric] makes of one element of an object
    column, a string or the NaN ([None]) of a record without the key:
    a null (NaN, the empty string, a string that is no number), a
    number that is not spelled as an integer, or an integer with its
    exact value beside the float that was read.  A float read as NaN
    counts as a null, as the check [fval != fval] has it. *)
Inductive reading : Type :=
| Null
| Real (x : float)
| Whole (n : Z) (x : float).

Definition read (v : option string) : reading :=
  match v with
  | None => Null
  | Some EmptyString => Null
  | Some s =>
      match floatify s with
      | Some (x, maybe_int) =>
          if isnan x then Null
          else if maybe_int then Whole (int s) x
          else Real x
      | None => Null
      end
  end.

(** The dtype of the result is decided over the whole column: a null,
    a non-integer, an integer outside of both 64-bit ranges, or a
    negative integer beside one above [INT64_MAX], make it float64;
    otherwise an integer above [INT64_MAX] makes it uint64; otherwise
    it is int64. *)
Inductive dtype : Type := int64 | uint64 | float64.

Definition INT64_MIN : Z := - 2 ^ 63.
Definition INT64_MAX : Z := 2 ^ 63 - 1.
Definition UINT64_MAX : Z := 2 ^ 64 - 1.

Definition is_whole (r : reading) : bool :=
  match r with
  | Whole _ _ => true
  | _ => false
  end.

Definition out_of_range (r : reading) : bool :=
  match r with
  | Whole n _ => (n <? INT64_MIN)%Z || (UINT64_MAX <? n)%Z
  | _ => false
  end.

Definition is_sint (r : reading) : bool :=
  match r with
  | Whole n _ => (INT64_MIN <=? n)%Z && (n <? 0)%Z
  | _ => false
  end.

Definition is_uint (r : reading) : bool :=
  match r with
  | Whole n _ => (INT64_MAX <? n)%Z && (n <=? UINT64_MAX)%Z
  | _ => false
  end.

Definition dtype_of (rs : list reading) : dtype :=
  if existsb (fun r => negb (is_whole r)) rs
     || existsb out_of_range rs
     || (existsb is_uint rs && existsb is_sint rs)
  then float64
  else if existsb is_uint rs then uint64
  else int64.

(** A numeric array: 64-bit integers, signed or not, or binary64. *)
Inductive ndarray : Type :=
| Int64 (values : list Z)
| UInt64 (values : list Z)
| Float64 (values : list float).

Definition as_float (r : reading) : float :=
  match r with
  | Null => nan
  | Real x => x
  | Whole _ x => x
  end.

Definition as_int (r : reading) : Z :=
  match r with
  | Whole n _ => n
  | _ => 0%Z
  end.

Definition cast (d : dtype) (rs : list reading) : ndarray :=
  match d with
  | int64 => Int64 (map as_int rs)
  | uint64 => UInt64 (map as_int rs)
  | float64 => Float64 (map as_float rs)
  end.

(** [pd.to_numeric(column, errors='coerce')] on an object column. *)
Definition to_numeric (column : list (option string)) : ndarray :=
  let rs := map read column in
  cast (dtype_of rs) rs.

(** *** Element-wise operations *)

Fixpoint zip_with {A B C : Type} (f : A -> B -> C) (xs : list A) (ys : list B)
    : list C :=
  match xs, ys with
  | x :: xs', y :: ys' => f x y :: zip_with f xs' ys'
  | _, _ => []
  end.

(** An integer array has no NaN. *)
Definition notna (a : ndarray) : list bool :=
  match a with
  | Int64 values | UInt64 values => map (fun _ => true) values
  | Float64 values => map (fun x => negb (isnan x)) values
  end.

(** The value of an integer kept in 64 bits, signed or not. *)
Definition wrap_int64 (n : Z) : Z := ((n + 2 ^ 63) mod 2 ^ 64 - 2 ^ 63)%Z.
Definition wrap_uint64 (n : Z) : Z := (n mod 2 ^ 64)%Z.

Definition to_floats (a : ndarray) : list float :=
  match a with
  | Int64 values | UInt64 values => map of_Z values
  | Float64 values => values
  end.

(** [a * b]: two arrays of the same integer dtype multiply in that
    dtype and wrap around; any other pair multiplies in binary64. *)
Definition times (a b : ndarray) : ndarray :=
  match a, b with
  | Int64 xs, Int64 ys => Int64 (zip_with (fun m n => wrap_int64 (m * n)) xs ys)
  | UInt64 xs, UInt64 ys => UInt64 (zip_with (fun m n => wrap_uint64 (m * n)) xs ys)
  | _, _ => Float64 (zip_with mul (to_floats a) (to_floats b))
  end.

Definition and_ (xs ys : list bool) : list bool := zip_with andb xs ys.

(** [column.str.contains(r'^(PE|NSTP)', case=False, regex=True)] on an
    object column: a boolean per string, NaN ([None]) per missing
    value. *)
Definition str_contains (alternatives : list string)
    (column : list (option string)) : list (option bool) :=
  map (option_map (Str.search_anchored alternatives)) column.

(** Unary [~].  On a column of booleans it negates each.  A column
    with a NaN in it is of object dtype, the operator is applied to
    each element, and on the NaN, a float, it raises [TypeError]. *)
Fixpoint invert (xs : list (option bool)) : result (list bool) :=
  match xs with
  | [] => Ok []
  | Some b :: xs' => r <- invert xs' ;; Ok (negb b :: r)
  | None :: _ => Raise TypeError
  end.

(** *** Reductions *)

(** numpy's sum of a binary64 array, as of numpy 2.  Eight
    partial sums run over the array in steps of eight and are added
    pairwise at the end, the elements left over are added one by one;
    an array of more than 128 elements is split in two halves, the
    first a multiple of eight long, and each half summed this way.  An
    array of fewer than eight elements is summed from left to right,
    from -0.0. *)
Inductive lanes : Type :=
| Lanes (r0 r1 r2 r3 r4 r5 r6 r7 : float).

Fixpoint unrolled (r : lanes) (xs : list float) : lanes * list float :=
  match xs with
  | a0 :: a1 :: a2 :: a3 :: a4 :: a5 :: a6 :: a7 :: xs' =>
      let 'Lanes r0 r1 r2 r3 r4 r5 r6 r7 := r in
      unrolled (Lanes (add r0 a0) (add r1 a1) (add r2 a2) (add r3 a3)
                  (add r4 a4) (add r5 a5) (add r6 a6) (add r7 a7)) xs'
  | _ => (r, xs)
  end.

Definition block_sum (xs : list float) : float :=
  match xs with
  | a0 :: a1 :: a2 :: a3 :: a4 :: a5 :: a6 :: a7 :: xs' =>
      let '(Lanes r0 r1 r2 r3 r4 r5 r6 r7, rest) :=
        unrolled (Lanes a0 a1 a2 a3 a4 a5 a6 a7) xs' in
      fold_left add rest
        (add (add (add r0 r1) (add r2 r3)) (add (add r4 r5) (add r6 r7)))
  | _ => fold_left add xs (neg zero)
  end.

(** [depth] bounds the number of splits; the length of the array is
    always enough. *)
Fixpoint pairwise_sum (depth : nat) (xs : list float) : float :=
  match depth with
  | O => block_sum xs
  | S depth' =>
      let n := List.length xs in
      if (n <=? 128)%nat then block_sum xs
      else
        let n2 := (n / 2 - (n / 2) mod 8)%nat in
        add (pairwise_sum depth' (firstn n2 xs)) (pairwise_sum depth' (skipn n2 xs))
  end.

(** [np.add.reduce]: the sum of no element is 0.0; otherwise the
    pairwise sum is added to the initial -0.0. *)
Definition add_reduce (xs : list float) : float :=
  match xs with
  | [] => zero
  | _ :: _ => add (neg zero) (pairwise_sum (List.length xs) xs)
  end.

Definition nan_to_zero (x : float) : float := if isnan x then zero else x.

(** The result of a reduction carries the dtype of its array. *)
Inductive scalar : Type :=
| I64 (n : Z)
| U64 (n : Z)
| F64 (x : float).

(** [column.sum()].  In a float column every NaN is first replaced by
    0, so that the sum skips it.  An integer column is summed in its
    own dtype, wrapping around; wrapping at every addition and
    wrapping once at the end give the same value. *)
Definition sum (a : ndarray) : scalar :=
  match a with
  | Int64 values => I64 (wrap_int64 (fold_left Z.add values 0%Z))
  | UInt64 values => U64 (wrap_uint64 (fold_left Z.add values 0%Z))
  | Float64 values => F64 (add_reduce (map nan_to_zero values))
  end.


(** [x > 0] *)
Definition positive (x : scalar) : bool :=
  match x with
  | I64 n | U64 n => (0 <? n)%Z
  | F64 x => ltb zero x
  end.

Definition to_float (x : scalar) : float :=
  match x with
  | I64 n | U64 n => of_Z n
  | F64 x => x
  end.

(** [x / y]: the true division of two scalars is that of their
    binary64 values. *)
Definition true_divide (x y : scalar) : float := div (to_float x) (to_float y).

(** *** Row selection *)

(** [column[mask]] *)
Fixpoint select {A : Type} (mask : list bool) (xs : list A) : list A :=
  match mask, xs with
  | b :: mask', x :: xs' => if b then x :: select mask' xs' else select mask' xs'
  | _, _ => []
  end.

Definition select_array (mask : list bool) (a : ndarray) : ndarray :=
  match a with
  | Int64 values => Int64 (select mask values)
  | UInt64 values => UInt64 (select mask values)
  | Float64 values => Float64 (select mask values)
  end.

Definition size (a : ndarray) : nat :=
  match a with
  | Int64 values | UInt64 values => List.length values
  | Float64 values => List.length values
  end.

End Pandas.

(** ** Python dictionaries with string keys and values

    Insertion ordered; assigning to a key already present replaces its
    value and keeps its place. *)

Definition dict : Type := list (string * string).

Fixpoint dict_set (key val : string) (d : dict) : dict :=
  match d with
  | [] => [(key, val)]
  | (k, v) :: d' =>
      if String.eqb k key then (key, val) :: d' else (k, v) :: dict_set key val d'
  end.

Fixpoint dict_get (key : string) (d : dict) : option string :=
  match d with
  | [] => None
  | (k, v) :: d' => if String.eqb k key then Some v else dict_get key d'
  end.

Definition keys (d : dict) : list string := map fst d.

(** [dict(pairs)] and the dictionary comprehensions: the pairs are
    assigned in order. *)
Definition dict_of (pairs : list (string * string)) : dict :=
  fold_left (fun d kv => dict_set (fst kv) (snd kv) d) pairs [].

(** ** BeautifulSoup: the parsed tree and its queries *)

Module Bs4.

#[local] Set Warnings "-register-all".

(** A node of the tree the HTML parser hands back: a run of text, or
    a tag with its name, the values of its [class] attribute and its
    children. *)
Inductive PageElement : Type :=
| NavigableString (text : string)
| Tag (name : string) (class_ : list string) (contents : list PageElement).

(** [tag.descendants]: every node below [tag], in document order. *)
Fixpoint descendants (tag : PageElement) : list PageElement :=
  match tag with
  | NavigableString _ => []
  | Tag _ _ contents => flat_map (fun c => c :: descendants c) contents
  end.

Definition is_tag (name : string) (class_ : option string) (el : PageElement)
    : bool :=
  match el with
  | NavigableString _ => false
  | Tag n classes _ =>
      String.eqb n name
      && match class_ with
         | Some c => existsb (String.eqb c) classes
         | None => true
         end
  end.

(** [tag.find_all(name, class_=...)] *)
Definition find_all (name : string) (class_ : option string)
    (tag : PageElement) : list PageElement :=
  filter (is_tag name class_) (descendants tag).

(** [tag.find(name, class_=...)] *)
Definition find (name : string) (class_ : option string)
    (tag : PageElement) : option PageElement :=
  hd_error (find_all name class_ tag).

Definition text_of (el : PageElement) : list string :=
  match el with
  | NavigableString text => [text]
  | Tag _ _ _ => []
  end.

(** [tag.get_text(strip=True)]: every string below [tag] is stripped,
    the empty ones are left out, the others are joined. *)
Definition get_text (tag : PageElement) : string :=
  String.concat ""
    (filter (fun s => negb (String.eqb s ""))
       (map Str.strip (flat_map text_of (descendants tag)))).

End Bs4.

Import Bs4.

(** ** pandas: frames *)

(** A column of the frame that [parse_csrs_file] builds and
    [calculate_gwa] extends.  A column read from the document holds
    strings, and NaN ([None]) in the rows whose record lacks the key;
    the four computed columns carry their own names and types. *)
Inductive column : Type :=
| Extracted (name : string) (values : list (option string))
| Units_Calc (values : Pandas.ndarray)
| Grade_Calc (values : Pandas.ndarray)
| Is_Included (values : list bool)
| Weighted_Grade (values : Pandas.ndarray).

Definition column_name (c : column) : string :=
  match c with
  | Extracted name _ => name
  | Units_Calc _ => "Units_Calc"
  | Grade_Calc _ => "Grade_Calc"
  | Is_Included _ => "Is_Included"
  | Weighted_Grade _ => "Weighted_Grade"
  end.

Definition DataFrame : Type := list column.

(** The column labels gathered over the records, each at its first
    appearance. *)
Definition add_label (labels : list string) (k : string) : list string :=
  if existsb (String.eqb k) labels then labels else labels ++ [k].

Definition labels_of (records : list dict) : list string :=
  fold_left (fun labels d => fold_left add_label (keys d) labels) records [].

(** [pd.DataFrame(records)] for a list of dictionaries. *)
Definition DataFrame_of (records : list dict) : DataFrame :=
  map (fun k => Extracted k (map (dict_get k) records)) (labels_of records).

(** [df[name]], the column if there is one. *)
Definition getitem (name : string) (df : DataFrame) : option column :=
  List.find (fun c => String.eqb (column_name c) name) df.

(** [df[name] = ...]: replaces the column of that name where it stands,
    or appends a new last column. *)
Fixpoint setitem (c : column) (df : DataFrame) : DataFrame :=
  match df with
  | [] => [c]
  | c' :: df' =>
      if String.eqb (column_name c') (column_name c)
      then c :: df'
      else c' :: setitem c df'
  end.

(** Reading a column as the code uses it: [df[name]] for one of the
    five columns it expects from the document, for one of the computed
    columns of numbers, for the computed column of flags.  A missing
    label raises [KeyError]. *)
Definition object_column (name : string) (df : DataFrame)
    : result (list (option string)) :=
  match getitem name df with
  | Some (Extracted _ values) => Ok values
  | _ => Raise (KeyError name)
  end.

Definition numeric_column (name : string) (df : DataFrame)
    : result Pandas.ndarray :=
  match getitem name df with
  | Some (Units_Calc values) | Some (Grade_Calc values)
  | Some (Weighted_Grade values) => Ok values
  | _ => Raise (KeyError name)
  end.

Definition bool_column (name : string) (df : DataFrame) : result (list bool) :=
  match getitem name df with
  | Some (Is_Included values) => Ok values
  | _ => Raise (KeyError name)
  end.

(** [df[mask]]: the rows where the mask holds, in every column. *)
Definition select_column (mask : list bool) (c : column) : column :=
  match c with
  | Extracted name values => Extracted name (Pandas.select mask values)
  | Units_Calc values => Units_Calc (Pandas.select_array mask values)
  | Grade_Calc values => Grade_Calc (Pandas.select_array mask values)
  | Is_Included values => Is_Included (Pandas.select mask values)
  | Weighted_Grade values => Weighted_Grade (Pandas.select_array mask values)
  end.

Definition loc (mask : list bool) (df : DataFrame) : DataFrame :=
  map (select_column mask) df.

(** ** [parse_csrs_file] *)

(** One row of the information table: a row of exactly two cells adds
    an entry, any other row adds nothing. *)
Definition info_row (student_info : dict) (row : PageElement) : dict :=
  let cols := find_all "td" None row in
  match cols with
  | [c0; c1] =>
      let key := Str.remove ":" (get_text c0) in
      let val := get_text c1 in
      dict_set key val student_info
  | _ => student_info
  end.

Definition student_info (soup : PageElement) : dict :=
  match find "table" (Some "form") soup with
  | Some info_table => fold_left info_row (find_all "tr" None info_table) []
  | None => []
  end.

(** [enumerate(cols)] *)
Definition enumerate {A : Type} (l : list A) : list (nat * A) :=
  combine (seq 0 (List.length l)) l.

(** [{headers[i]: col.get_text(strip=True) for i, col in enumerate(cols)
     if i < len(headers)}] *)
Definition row_data (headers : list string) (cols : list PageElement) : dict :=
  fold_left
    (fun d ic =>
       match nth_error headers (fst ic) with
       | Some h => dict_set h (get_text (snd ic)) d
       | None => d
       end)
    (enumerate cols) [].

(** The column names of a grade table: its [th] cells. *)
Definition headers (table : PageElement) : list string :=
  map get_text (find_all "th" None table).

(** The records of one row of a grade table: none for a row holding a
    [th] or no [td], one otherwise. *)
Definition grade_row (headers : list string) (row : PageElement) : list dict :=
  match find "th" None row with
  | Some _ => []
  | None =>
      match find_all "td" None row with
      | [] => []
      | cols => [row_data headers cols]
      end
  end.

Definition grade_table (table : PageElement) : list dict :=
  flat_map (grade_row (headers table)) (find_all "tr" None table).

Definition all_grades (soup : PageElement) : list dict :=
  flat_map grade_table (find_all "table" (Some "list") soup).

(** The function takes the tree that [BeautifulSoup(uploaded_file,
    'lxml')] returns. *)
Definition parse_csrs_file (soup : PageElement) : dict * DataFrame :=
  (student_info soup, DataFrame_of (all_grades soup)).

(** ** [calculate_gwa] *)

Record TermSummary : Type := {
  Year : string;
  Semester : string;
  Term : string;
  Units : Pandas.scalar;
  GWA : float
}.

(** *** [df.groupby(['Year', 'Semester'], sort=False)]

    The key of a row is its pair of year and semester; a row with a NaN
    in either belongs to no group.  The groups come in the order in
    which their keys are first met, each holding all the rows of its
    key. *)

Definition key : Type := string * string.

Definition key_eqb (a b : key) : bool :=
  String.eqb (fst a) (fst b) && String.eqb (snd a) (snd b).

Definition row_key (year semester : option string) : option key :=
  match year, semester with
  | Some y, Some s => Some (y, s)
  | _, _ => None
  end.

Definition row_keys (year semester : list (option string)) : list (option key) :=
  Pandas.zip_with row_key year semester.

Definition observe (seen : list key) (k : option key) : list key :=
  match k with
  | Some k => if existsb (key_eqb k) seen then seen else seen ++ [k]
  | None => seen
  end.

Definition unique (ks : list (option key)) : list key :=
  fold_left observe ks [].

Definition has_key (k : key) (rk : option key) : bool :=
  match rk with
  | Some k' => key_eqb k k'
  | None => false
  end.

Definition groupby (df : DataFrame) : result (list (key * DataFrame)) :=
  year <- object_column "Year" df ;;
  semester <- object_column "Semester" df ;;
  let ks := row_keys year semester in
  Ok (map (fun k => (k, loc (map (has_key k) ks) df)) (unique ks)).

(** *** The weighted average of a frame

    Lines 41 to 44 for a group and lines 59 to 62 for the whole frame
    are the same computation: the included rows, their units and
    weighted grades summed, the quotient when the units are positive
    and [0.0] otherwise.  It returns the total units and the average. *)
Definition weighted_average (frame : DataFrame)
    : result (Pandas.scalar * float) :=
  mask <- bool_column "Is_Included" frame ;;
  let valid := loc mask frame in
  units <- numeric_column "Units_Calc" valid ;;
  let total_units := Pandas.sum units in
  weighted <- numeric_column "Weighted_Grade" valid ;;
  let weighted_sum := Pandas.sum weighted in
  let gwa :=
    if Pandas.positive total_units
    then Pandas.true_divide weighted_sum total_units
    else zero in
  Ok (total_units, gwa).

Definition short_sem (sem : string) : string :=
  if Str.contains "FIRST" sem then "1st Sem"
  else if Str.contains "SECOND" sem then "2nd Sem"
  else "Midsem".

(** The body of the loop over the groups: the summary of one group. *)
Definition term_summary (group : key * DataFrame) : result TermSummary :=
  let '((year, sem), group) := group in
  ug <- weighted_average group ;;
  let term_label := (year ++ " " ++ short_sem sem)%string in
  Ok {| Year := year;
        Semester := sem;
        Term := term_label;
        Units := fst ug;
        GWA := snd ug |}.

Fixpoint for_each {A B : Type} (f : A -> result B) (l : list A) : result (list B) :=
  match l with
  | [] => Ok []
  | x :: l' => y <- f x ;; ys <- for_each f l' ;; Ok (y :: ys)
  end.

(** The frame is changed in place: the first component of the result is
    the caller's frame as the call leaves it. *)
Definition calculate_gwa (df : DataFrame)
    : result (DataFrame * list TermSummary * float) :=
  units <- object_column "Units" df ;;
  let df := setitem (Units_Calc (Pandas.to_numeric units)) df in
  grade <- object_column "Grade" df ;;
  let df := setitem (Grade_Calc (Pandas.to_numeric grade)) df in
  course <- object_column "Course" df ;;
  not_pe <- Pandas.invert (Pandas.str_contains ["PE"; "NSTP"] course) ;;
  grade_calc <- numeric_column "Grade_Calc" df ;;
  let df := setitem (Is_Included (Pandas.and_ not_pe (Pandas.notna grade_calc))) df in
  grade_calc <- numeric_column "Grade_Calc" df ;;
  units_calc <- numeric_column "Units_Calc" df ;;
  let df := setitem (Weighted_Grade (Pandas.times grade_calc units_calc)) df in
  sem_groups <- groupby df ;;
  sem_data <- for_each term_summary sem_groups ;;
  let df_sem := sem_data in
  overall <- weighted_average df ;;
  let overall_gwa := snd overall in
  Ok (df, df_sem, overall_gwa).

(** [aggregate]: the frame of the records, then [calculate_gwa]. *)
Definition aggregate (records : list dict)
    : result (DataFrame * list TermSummary * float) :=
  calculate_gwa (DataFrame_of records).

(** ** The record-wise view of the specification

    The specification describes the aggregation record by record: every
    grade record gains a numeric reading of its units and of its grade,
    an inclusion flag and a weighted grade; the records are then
    grouped by term.  The definitions of this module follow that
    description; the theorems below relate them to the column-wise
    computation of [calculate_gwa]. *)

Module Spec.

(** [s.lower()] *)
Fixpoint lower (s : string) : string :=
  match s with
  | String c s' => String (Str.tolower c) (lower s')
  | EmptyString => EmptyString
  end.

(** The course code starts with PE or NSTP, whatever the case. *)
Definition pe_or_nstp (course : string) : bool :=
  Str.startswith "pe" (lower course) || Str.startswith "nstp" (lower course).

(** What the units and the grade of a record read as. *)
Definition units_reading (r : dict) : Pandas.reading :=
  Pandas.read (dict_get "Units" r).

Definition grade_reading (r : dict) : Pandas.reading :=
  Pandas.read (dict_get "Grade" r).

(** The dtype of the numeric units and of the numeric grades of a
    transcript: it is decided over all its records. *)
Definition units_dtype (records : list dict) : Pandas.dtype :=
  Pandas.dtype_of (map units_reading records).

Definition grade_dtype (records : list dict) : Pandas.dtype :=
  Pandas.dtype_of (map grade_reading records).

(** The numeric units, the numeric grades and the weighted grades of
    the records [members] of the transcript [records]. *)
Definition UnitsNumeric (records members : list dict) : Pandas.ndarray :=
  Pandas.cast (units_dtype records) (map units_reading members).

Definition GradeNumeric (records members : list dict) : Pandas.ndarray :=
  Pandas.cast (grade_dtype records) (map grade_reading members).

Definition WeightedGrade (records members : list dict) : Pandas.ndarray :=
  Pandas.times (GradeNumeric records members) (UnitsNumeric records members).

(** A string parses when it reads as a number. *)
Definition parses (v : option string) : bool :=
  match Pandas.read v with
  | Pandas.Null => false
  | _ => true
  end.

Definition IsIncluded (r : dict) : bool :=
  match dict_get "Course" r with
  | Some course => negb (pe_or_nstp course)
  | None => false
  end
  && parses (dict_get "Grade" r).

(** The term of a record, when it names both a year and a semester. *)
Definition term (r : dict) : option key :=
  row_key (dict_get "Year" r) (dict_get "Semester" r).

Definition in_term (k : key) (r : dict) : bool := has_key k (term r).

(** The sums of the specification are those of the columns: over a
    float column they skip NaN, as [Pandas.sum] does. *)
Definition total_units (records members : list dict) : Pandas.scalar :=
  Pandas.sum (UnitsNumeric records members).

Definition weighted_sum (records members : list dict) : Pandas.scalar :=
  Pandas.sum (WeightedGrade records members).

Definition gwa (records members : list dict) : float :=
  if Pandas.positive (total_units records members)
  then Pandas.true_divide (weighted_sum records members) (total_units records members)
  else zero.

Definition included (rs : list dict) : list dict := filter IsIncluded rs.

Definition summary (records : list dict) (k : key) : TermSummary :=
  let members := included (filter (in_term k) records) in
  {| Year := fst k;
     Semester := snd k;
     Term := (fst k ++ " " ++ short_sem (snd k))%string;
     Units := total_units records members;
     GWA := gwa records members |}.

(** The position at which a key is first met, the length of the list
    when it never is. *)
Fixpoint first_index (k : key) (ks : list (option key)) : nat :=
  match ks with
  | [] => 0
  | rk :: ks' => if has_key k rk then 0 else S (first_index k ks')
  end.

(** The keys of a list, each kept at its first occurrence. *)
Fixpoint first_occurrences (ks : list (option key)) : list key :=
  match ks with
  | [] => []
  | None :: ks' => first_occurrences ks'
  | Some k :: ks' =>
      k :: filter (fun k' => negb (key_eqb k k')) (first_occurrences ks')
  end.

(** Equality of two floats as Python's [==] sees it, two NaN counting
    as equal: the two zeros are not told apart. *)
Definition same_number (x y : float) : Prop :=
  x = y \/ (is_zero x = true /\ is_zero y = true).

(** The key as the specification words it: the text with one colon
    taken off its end, when it ends with one. *)
Fixpoint strip_trailing_colon (s : string) : string :=
  match s with
  | EmptyString => EmptyString
  | String c EmptyString => if Ascii.eqb c ":" then EmptyString else s
  | String c s' => String c (strip_trailing_colon s')
  end.

(** The column names as the specification words them: the header cells
    of the first row of the table. *)
Definition first_row_headers (table : PageElement) : list string :=
  match find_all "tr" None table with
  | row :: _ => map get_text (find_all "th" None row)
  | [] => []
  end.

End Spec.

(** ** The result of [calculate_gwa], column by column *)

(** The total units and the average computed from the three computed
    columns of a frame. *)
Definition average_of (included : list bool) (units weighted : Pandas.ndarray)
    : Pandas.scalar * float :=
  let total_units := Pandas.sum (Pandas.select_array included units) in
  let weighted_sum := Pandas.sum (Pandas.select_array included weighted) in
  (total_units,
   if Pandas.positive total_units
   then Pandas.true_divide weighted_sum total_units
   else zero).

Definition summary_of (included : list bool) (units weighted : Pandas.ndarray)
    (ks : list (option key)) (k : key) : TermSummary :=
  let mask := map (has_key k) ks in
  let ug := average_of (Pandas.select mask included)
              (Pandas.select_array mask units)
              (Pandas.select_array mask weighted) in
  {| Year := fst k;
     Semester := snd k;
     Term := (fst k ++ " " ++ short_sem (snd k))%string;
     Units := fst ug;
     GWA := snd ug |}.

Definition with_computed (included : list bool)
    (units grades weighted : Pandas.ndarray) (df : DataFrame) : DataFrame :=
  setitem (Weighted_Grade weighted)
    (setitem (Is_Included included)
       (setitem (Grade_Calc grades)
          (setitem (Units_Calc units) df))).

(** [calculate_gwa] with the reads of the five source columns brought
    to the front. *)
Definition calculate_gwa_flat (df : DataFrame)
    : result (DataFrame * list TermSummary * float) :=
  units <- object_column "Units" df ;;
  grade <- object_column "Grade" df ;;
  course <- object_column "Course" df ;;
  not_pe <- Pandas.invert (Pandas.str_contains ["PE"; "NSTP"] course) ;;
  year <- object_column "Year" df ;;
  semester <- object_column "Semester" df ;;
  let U := Pandas.to_numeric units in
  let G := Pandas.to_numeric grade in
  let I := Pandas.and_ not_pe (Pandas.notna G) in
  let W := Pandas.times G U in
  let ks := row_keys year semester in
  Ok (with_computed I U G W df,
      map (summary_of I U W ks) (unique ks),
      snd (average_of I U W)).

(** ** The result of [aggregate], record by record *)

Definition source_columns : list string :=
  ["Units"; "Grade"; "Course"; "Year"; "Semester"].

Definition computed_columns : list string :=
  ["Units_Calc"; "Grade_Calc"; "Is_Included"; "Weighted_Grade"].

(** The label occurs in some record. *)
Definition has_label (name : string) (records : list dict) : bool :=
  existsb (String.eqb name) (labels_of records).

(** Every record names a course. *)
Definition all_courses (records : list dict) : bool :=
  forallb (fun r => match dict_get "Course" r with Some _ => true | None => false end)
    records.

Definition not_pe (r : dict) : bool :=
  match dict_get "Course" r with
  | Some course => negb (Spec.pe_or_nstp course)
  | None => false
  end.

(** The result of [aggregate] when it returns, in the record-wise
    terms of the specification. *)
Definition aggregate_result (records : list dict)
    : DataFrame * list TermSummary * float :=
  (with_computed (map Spec.IsIncluded records)
     (Spec.UnitsNumeric records records) (Spec.GradeNumeric records records)
     (Spec.WeightedGrade records records) (DataFrame_of records),
   map (Spec.summary records) (unique (map Spec.term records)),
   Spec.gwa records (Spec.included records)).

(** The order of first occurrence between two keys of a list. *)
Definition met_before (ks : list (option key)) (a b : key) : Prop :=
  Spec.first_index a ks < Spec.first_index b ks.

(** The units of the record parse. *)
Definition counted (r : dict) : bool := Spec.parses (dict_get "Units" r).

(** The binary64 value of a reading in a column of the given dtype. *)
Definition float_in (d : Pandas.dtype) (r : Pandas.reading) : float :=
  match d with
  | Pandas.float64 => Pandas.as_float r
  | _ => of_Z (Pandas.as_int r)
  end.

(** Zero in a dtype. *)
Definition zero_of (d : Pandas.dtype) : Pandas.scalar :=
  match d with
  | Pandas.int64 => Pandas.I64 0
  | Pandas.uint64 => Pandas.U64 0
  | Pandas.float64 => Pandas.F64 zero
  end.

(** [column.fillna(0)] *)
Definition fillna (a : Pandas.ndarray) : Pandas.ndarray :=
  match a with
  | Pandas.Float64 values => Pandas.Float64 (map Pandas.nan_to_zero values)
  | _ => a
  end.

(** ** Dictionaries built from pairs *)

Definition assign (d : dict) (kv : string * string) : dict :=
  dict_set (fst kv) (snd kv) d.

Definition last_value (key : string) (pairs : list (string * string))
    : option string :=
  option_map snd (List.find (fun kv => String.eqb (fst kv) key) (rev pairs)).

(** What a row of the information table contributes. *)
Definition info_entry (row : PageElement) : list (string * string) :=
  match find_all "td" None row with
  | [c0; c1] => [(Str.remove ":" (get_text c0), get_text c1)]
  | _ => []
  end.

Definition assign_cell (headers : list string) (d : dict) (ic : nat * PageElement)
    : dict :=
  match nth_error headers (fst ic) with
  | Some h => dict_set h (get_text (snd ic)) d
  | None => d
  end.

(** ** Transcripts and documents used to run the definitions *)

Definition record_of (course grade units year semester : string) : dict :=
  [("Course", course); ("Grade", grade); ("Units", units);
   ("Year", year); ("Semester", semester)].

Definition sample : list dict :=
  [record_of "MATH1" "1.0" "3" "2023" "FIRST";
   record_of "PE1" "1.0" "2" "2023" "FIRST";
   record_of "CS1" "2.5" "N/A" "2024" "SECOND";
   record_of "ENG1" "INC" "3" "2023" "FIRST";
   record_of "PHYS1" "2.0" "3" "2023" "FIRST"].

Definition sample_frame : DataFrame :=
  Eval vm_compute in
    match aggregate sample with Ok (df, _, _) => df | Raise _ => [] end.

Definition sample_terms : list TermSummary :=
  Eval vm_compute in
    match aggregate sample with Ok (_, sem, _) => sem | Raise _ => [] end.

Definition sample_gwa : float :=
  Eval vm_compute in
    match aggregate sample with Ok (_, _, g) => g | Raise _ => nan end.

Definition partial_records : list dict :=
  [record_of "MATH1" "1.0" "3" "2023" "FIRST";
   [("Course", "CS1")]].

Definition course_only : list dict := [[("Course", "CS1")]].

(** Two courses whose units are the largest int64. *)
Definition largest_units : list dict :=
  [record_of "MATH1" "1" "9223372036854775807" "2023" "FIRST";
   record_of "CS1" "1" "9223372036854775807" "2023" "FIRST"].

(** Eight courses of one term, and the same term with a course before
    them whose units do not parse. *)
Definition eight_courses : list dict :=
  repeat (record_of "MATH1" "1.7" "1.0" "2023" "FIRST") 8.

Definition uncounted_first : list dict :=
  record_of "THESIS" "1.7" "N/A" "2023" "FIRST" :: eight_courses.

Definition collision : list dict :=
  [[("Course", "MATH1"); ("Grade", "1.0"); ("Units", "3"); ("Year", "2023");
    ("Semester", "FIRST"); ("Is_Included", "yes")]].

Definition td (text : string) : PageElement := Tag "td" [] [NavigableString text].
Definition th (text : string) : PageElement := Tag "th" [] [NavigableString text].
Definition tr (cells : list PageElement) : PageElement := Tag "tr" [] cells.
Definition table (class_ : string) (rows : list PageElement) : PageElement :=
  Tag "table" [class_] rows.
Definition document (children : list PageElement) : PageElement :=
  Tag "[document]" [] children.

Definition colon_key_page : PageElement :=
  document [table "form" [tr [td "Date:Time:"; td "noon"]]].

Definition info_page : PageElement :=
  document
    [table "form"
       [tr [td "Name:"; td " Juan Dela Cruz "];
        tr [td "Student Number"; td "2021-00001"];
        tr [td "Remarks"];
        tr [td "a"; td "b"; td "c"]]].

Definition repeated_header_page : PageElement :=
  document
    [table "list"
       [tr [th "Course"; th "Grade"; th "Grade"];
        tr [td "MATH1"; td "1.0"; td "1.25"; td "3"; td "2023"]]].

Definition late_header_page : PageElement :=
  document
    [table "list"
       [tr [th "Course"; th "Grade"];
        tr [td "MATH1"; td "1.0"; td "3"];
        tr [th "Units"];
        tr [td "CS1"; td "2.0"; td "4"]]].

(** ** The dashboard

    The parts of the user interface that compute: the guard on the
    empty frame, the total units shown beside the GWA, the standing
    derived from the GWA, the lines of the sidebar and the columns of
    the history table.  The drawing of the page is not modelled. *)

Definition column_length (c : column) : nat :=
  match c with
  | Extracted _ values => List.length values
  | Units_Calc values => Pandas.size values
  | Grade_Calc values => Pandas.size values
  | Is_Included values => List.length values
  | Weighted_Grade values => Pandas.size values
  end.

(** [df.empty]: the frame has no column or no row. *)
Definition empty (df : DataFrame) : bool :=
  match df with
  | [] => true
  | c :: _ => (column_length c =? 0)%nat
  end.

(** [processed_df[processed_df['Is_Included']]['Units_Calc'].sum()] *)
Definition total_units_metric (processed_df : DataFrame)
    : result Pandas.scalar :=
  mask <- bool_column "Is_Included" processed_df ;;
  units <- numeric_column "Units_Calc" (loc mask processed_df) ;;
  Ok (Pandas.sum units).

(** The float written [n / 100] in the source, for the three
    thresholds: the binary64 nearest to the decimal. *)
Definition hundredths (n : Z) : float := div (of_Z n) (of_Z 100).

Definition leb : float -> float -> bool := SFleb.

(** The status shown in the third metric. *)
Definition standing (overall_gwa : float) : string :=
  if leb overall_gwa (hundredths 120) then "Summa Cum Laude Standing"
  else if leb overall_gwa (hundredths 145) then "Magna Cum Laude Standing"
  else if leb overall_gwa (hundredths 175) then "Cum Laude Standing"
  else "Good Standing".



Definition display_cols : list string :=
  ["Course"; "Grade"; "Units"; "Year"; "Semester"].

(** ** Notions used by the further statements *)

(** [sub] occurs in [s]. *)
Definition substring (sub s : string) : Prop :=
  exists pre post, s = (pre ++ sub ++ post)%string.


(** Two records that differ at most in fields the averages do not
    read: they agree on course, grade, year and semester, and on the
    units when the record is included. *)
Definition same_for_gwa (r r' : dict) : Prop :=
  dict_get "Course" r = dict_get "Course" r'
  /\ dict_get "Grade" r = dict_get "Grade" r'
  /\ dict_get "Year" r = dict_get "Year" r'
  /\ dict_get "Semester" r = dict_get "Semester" r'
  /\ (Spec.IsIncluded r = true -> dict_get "Units" r = dict_get "Units" r').

Definition is_list_table (el : PageElement) : bool :=
  is_tag "table" (Some "list") el.

(** ** Further transcripts and documents *)

Definition no_units : list dict :=
  [[("Course", "MATH1"); ("Grade", "1.0"); ("Year", "2023"); ("Semester", "FIRST")]].

Definition negative_units : list dict :=
  [record_of "MATH1" "1.0" "-3" "2023" "FIRST"].

Definition only_pe : list dict :=
  [record_of "MATH1" "1.0" "3" "2023" "FIRST";
   record_of "PE2" "1.0" "2" "2023" "SECOND";
   record_of "NSTP1" "INC" "3" "2023" "SECOND"].

Definition split_terms : list dict :=
  [[("Course", "MATH1"); ("Grade", "1.5"); ("Units", "3"); ("Year", "2023")];
   [("Course", "CS1"); ("Grade", "2.5"); ("Units", "3"); ("Semester", "FIRST")]].

Definition one_term : list dict :=
  [record_of "MATH1" "1.0" "3" "2023" "FIRST";
   record_of "CS1" "2.0" "3" "2023" "FIRST"].

Definition sample_other_units : list dict :=
  [record_of "MATH1" "1.0" "3" "2023" "FIRST" ++ [("Remarks", "passed")];
   record_of "PE1" "1.0" "40" "2023" "FIRST";
   record_of "CS1" "2.5" "N/A" "2024" "SECOND";
   record_of "ENG1" "INC" "" "2023" "FIRST";
   record_of "PHYS1" "2.0" "3" "2023" "FIRST"].

Definition ungraded : list dict :=
  [record_of "MATH1" "INC" "3" "2023" "FIRST";
   record_of "PE1" "1.0" "2" "2023" "FIRST"].

Definition nested_page : PageElement :=
  document
    [table "list"
       [tr [th "Course"];
        tr [td "MATH1"];
        Tag "tfoot" []
          [table "list" [tr [th "Grade"]; tr [td "CS1"; td "2.0"]]]]].

Definition transcript_page : PageElement :=
  document
    [table "form" [tr [td "Name:"; td "Juan Dela Cruz"]; tr [td "Program :"; td "BSCS"]];
     table "list"
       [tr [th "Course"; th "Grade"; th "Units"; th "Year"; th "Semester"];
        tr [td "MATH1"; td "1.0"; td "3"; td "2023"; td "FIRST SEMESTER"];
        tr [td "PE1"; td "1.0"; td "2"; td "2023"; td "FIRST SEMESTER"]]].

(** * Properties *)

(** ** Strings and keys *)

Lemma key_eqb_eq (a b : key) : key_eqb a b = true <-> a = b.
Proof.
  destruct a as [y s], b as [y' s']; unfold key_eqb; simpl.
  rewrite andb_true_iff, !String.eqb_eq.
  split; [intros [-> ->]; reflexivity | intros [= -> ->]; auto].
Qed.

Lemma key_eqb_refl (a : key) : key_eqb a a = true.
Proof. apply key_eqb_eq; reflexivity. Qed.

Lemma key_eqb_sym (a b : key) : key_eqb a b = key_eqb b a.
Proof.
  destruct (key_eqb a b) eqn:E, (key_eqb b a) eqn:E'; try reflexivity.
  - apply key_eqb_eq in E; subst; rewrite key_eqb_refl in E'; discriminate.
  - apply key_eqb_eq in E'; subst; rewrite key_eqb_refl in E; discriminate.
Qed.

Lemma match_ignorecase_lower (p s : string) :
  Str.match_ignorecase p s = Str.startswith (Spec.lower p) (Spec.lower s).
Proof.
  revert s; induction p as [|a p IH]; intros s; [reflexivity|].
  destruct s as [|b s]; simpl; [reflexivity|].
  rewrite IH; reflexivity.
Qed.

Lemma search_pe_or_nstp (course : string) :
  Str.search_anchored ["PE"; "NSTP"] course = Spec.pe_or_nstp course.
Proof.
  unfold Str.search_anchored, Spec.pe_or_nstp; cbn [existsb].
  rewrite !match_ignorecase_lower, orb_false_r; reflexivity.
Qed.

(** ** Columns and rows *)

Lemma select_map {A B : Type} (p : A -> bool) (f : A -> B) (l : list A) :
  Pandas.select (map p l) (map f l) = map f (filter p l).
Proof.
  induction l as [|x l IH]; simpl; [reflexivity|].
  destruct (p x); simpl; rewrite IH; reflexivity.
Qed.

Lemma zip_with_map {A B C D : Type} (f : B -> C -> D) (g : A -> B) (h : A -> C)
    (l : list A) :
  Pandas.zip_with f (map g l) (map h l) = map (fun x => f (g x) (h x)) l.
Proof.
  induction l as [|x l IH]; simpl; [reflexivity|].
  rewrite IH; reflexivity.
Qed.

Lemma select_zip_with {A B C : Type} (f : A -> B -> C) (mask : list bool)
    (xs : list A) (ys : list B) :
  Pandas.select mask (Pandas.zip_with f xs ys) =
  Pandas.zip_with f (Pandas.select mask xs) (Pandas.select mask ys).
Proof.
  revert xs ys; induction mask as [|b mask IH]; intros [|x xs] [|y ys];
    try reflexivity.
  - simpl. destruct b; [|destruct (Pandas.select mask xs)]; reflexivity.
  - simpl. destruct b; simpl; rewrite IH; reflexivity.
Qed.

Lemma select_map_values {A B : Type} (f : A -> B) (mask : list bool) (xs : list A) :
  Pandas.select mask (map f xs) = map f (Pandas.select mask xs).
Proof.
  revert xs; induction mask as [|b mask IH]; intros [|x xs]; try reflexivity.
  simpl. destruct b; simpl; rewrite IH; reflexivity.
Qed.

Lemma select_to_floats (mask : list bool) (a : Pandas.ndarray) :
  Pandas.to_floats (Pandas.select_array mask a) =
  Pandas.select mask (Pandas.to_floats a).
Proof. destruct a; simpl; rewrite ?select_map_values; reflexivity. Qed.

Lemma select_times (mask : list bool) (a b : Pandas.ndarray) :
  Pandas.select_array mask (Pandas.times a b) =
  Pandas.times (Pandas.select_array mask a) (Pandas.select_array mask b).
Proof.
  destruct a, b; cbn [Pandas.times Pandas.select_array];
    rewrite select_zip_with, <- ?select_to_floats; reflexivity.
Qed.

Lemma select_cast {A : Type} (d : Pandas.dtype) (p : A -> bool)
    (f : A -> Pandas.reading) (l : list A) :
  Pandas.select_array (map p l) (Pandas.cast d (map f l)) =
  Pandas.cast d (map f (filter p l)).
Proof.
  destruct d; cbn [Pandas.cast Pandas.select_array];
    rewrite !map_map, select_map; reflexivity.
Qed.

Lemma column_name_select (mask : list bool) (c : column) :
  column_name (select_column mask c) = column_name c.
Proof. destruct c; reflexivity. Qed.

Lemma getitem_setitem (name : string) (c : column) (df : DataFrame) :
  getitem name (setitem c df) =
  if String.eqb (column_name c) name then Some c else getitem name df.
Proof.
  unfold getitem.
  induction df as [|c' df IH]; simpl.
  - destruct (String.eqb (column_name c) name); reflexivity.
  - destruct (String.eqb (column_name c') (column_name c)) eqn:E; simpl.
    + apply String.eqb_eq in E; rewrite E.
      destruct (String.eqb (column_name c) name); reflexivity.
    + destruct (String.eqb (column_name c') name) eqn:E'.
      * apply String.eqb_eq in E'; subst name; rewrite String.eqb_sym, E.
        reflexivity.
      * exact IH.
Qed.

Lemma getitem_loc (name : string) (mask : list bool) (df : DataFrame) :
  getitem name (loc mask df) = option_map (select_column mask) (getitem name df).
Proof.
  unfold getitem, loc.
  induction df as [|c df IH]; simpl; [reflexivity|].
  rewrite column_name_select.
  destruct (String.eqb (column_name c) name); [reflexivity | exact IH].
Qed.

Lemma setitem_same (c : column) (df : DataFrame) :
  getitem (column_name c) df = Some c -> setitem c df = df.
Proof.
  unfold getitem.
  induction df as [|c' df IH]; simpl; [discriminate|].
  destruct (String.eqb (column_name c') (column_name c)).
  - intros [= ->]; reflexivity.
  - intros H; rewrite (IH H); reflexivity.
Qed.

Lemma labels_setitem (c : column) (df : DataFrame) :
  map column_name (setitem c df) = add_label (map column_name df) (column_name c).
Proof.
  unfold add_label.
  induction df as [|c' df IH]; simpl; [reflexivity|].
  rewrite (String.eqb_sym (column_name c) (column_name c')).
  destruct (String.eqb (column_name c') (column_name c)) eqn:E; simpl.
  - apply String.eqb_eq in E; rewrite E; reflexivity.
  - rewrite IH.
    destruct (existsb (String.eqb (column_name c)) (map column_name df));
      reflexivity.
Qed.

(** ** [calculate_gwa], column by column *)

Lemma object_column_setitem (name : string) (c : column) (df : DataFrame) :
  String.eqb (column_name c) name = false ->
  object_column name (setitem c df) = object_column name df.
Proof.
  intros H; unfold object_column; rewrite getitem_setitem, H; reflexivity.
Qed.

Lemma object_column_with_computed (name : string) I U G W (df : DataFrame) :
  existsb (String.eqb name)
    ["Units_Calc"; "Grade_Calc"; "Is_Included"; "Weighted_Grade"] = false ->
  object_column name (with_computed I U G W df) = object_column name df.
Proof.
  cbn [existsb]; rewrite !orb_false_iff; intros (H1 & H2 & H3 & H4 & _).
  unfold with_computed.
  rewrite !object_column_setitem; try reflexivity;
    cbn [column_name]; rewrite String.eqb_sym; assumption.
Qed.

Lemma for_each_map {A B C : Type} (f : B -> result C) (g : A -> B) (h : A -> C)
    (l : list A) :
  (forall x, f (g x) = Ok (h x)) -> for_each f (map g l) = Ok (map h l).
Proof.
  intros H; induction l as [|x l IH]; simpl; [reflexivity|].
  rewrite H, IH; reflexivity.
Qed.

(** Reads of columns just assigned, possibly through a row selection. *)
Ltac read_columns :=
  repeat (progress
            (rewrite ?getitem_loc, ?getitem_setitem;
             cbn [column_name String.eqb Ascii.eqb Bool.eqb option_map
                  select_column bind])).

Lemma weighted_average_loc (mask : list bool) I U G W (df : DataFrame) :
  weighted_average (loc mask (with_computed I U G W df)) =
  Ok (average_of (Pandas.select mask I) (Pandas.select_array mask U)
        (Pandas.select_array mask W)).
Proof.
  unfold weighted_average, bool_column, numeric_column, with_computed.
  read_columns; reflexivity.
Qed.

Lemma weighted_average_with_computed I U G W (df : DataFrame) :
  weighted_average (with_computed I U G W df) = Ok (average_of I U W).
Proof.
  unfold weighted_average, bool_column, numeric_column, with_computed.
  read_columns; reflexivity.
Qed.

Lemma calculate_gwa_unfold (df : DataFrame) :
  calculate_gwa df = calculate_gwa_flat df.
Proof.
  unfold calculate_gwa, calculate_gwa_flat.
  destruct (object_column "Units" df) as [units|e]; [|reflexivity].
  cbn [bind].
  rewrite object_column_setitem by reflexivity.
  destruct (object_column "Grade" df) as [grade|e]; [|reflexivity].
  cbn [bind].
  rewrite !object_column_setitem by reflexivity.
  destruct (object_column "Course" df) as [course|e]; [|reflexivity].
  cbn [bind].
  destruct (Pandas.invert (Pandas.str_contains ["PE"; "NSTP"] course))
    as [not_pe|e]; [|reflexivity].
  cbn [bind].
  unfold numeric_column; read_columns.
  set (U := Pandas.to_numeric units).
  set (G := Pandas.to_numeric grade).
  set (I := Pandas.and_ not_pe (Pandas.notna G)).
  set (W := Pandas.times G U).
  change (setitem (Weighted_Grade W) _) with (with_computed I U G W df).
  unfold groupby.
  rewrite !object_column_with_computed by reflexivity.
  destruct (object_column "Year" df) as [year|e]; [|reflexivity].
  cbn [bind].
  destruct (object_column "Semester" df) as [semester|e]; [|reflexivity].
  cbn [bind].
  rewrite (for_each_map term_summary _ (summary_of I U W (row_keys year semester))).
  - cbn [bind]. rewrite weighted_average_with_computed. reflexivity.
  - intros [y s]. unfold term_summary. rewrite weighted_average_loc.
    reflexivity.
Qed.

(** ** The frame of a list of records *)

Lemma existsb_eqb_In (name : string) (l : list string) :
  existsb (String.eqb name) l = true <-> In name l.
Proof.
  rewrite existsb_exists; split.
  - intros (x & Hx & E); apply String.eqb_eq in E; subst; exact Hx.
  - intros H; exists name; split; [exact H | apply String.eqb_refl].
Qed.

Lemma In_add_label (name k : string) (labels : list string) :
  In name (add_label labels k) <-> In name labels \/ name = k.
Proof.
  unfold add_label.
  destruct (existsb (String.eqb k) labels) eqn:E.
  - apply existsb_eqb_In in E; split; [auto | intros [H | ->]; assumption].
  - rewrite in_app_iff; simpl; intuition.
Qed.

Lemma In_fold_add_label (name : string) (ks labels : list string) :
  In name (fold_left add_label ks labels) <-> In name labels \/ In name ks.
Proof.
  revert labels; induction ks as [|k ks IH]; intros labels; simpl.
  - intuition.
  - rewrite IH, In_add_label; intuition.
Qed.

Lemma In_keys_dict_get (name : string) (d : dict) :
  In name (keys d) <-> dict_get name d <> None.
Proof.
  induction d as [|[k v] d IH]; simpl.
  - intuition.
  - destruct (String.eqb k name) eqn:E.
    + apply String.eqb_eq in E; subst; split; [discriminate | auto].
    + apply String.eqb_neq in E; rewrite <- IH; intuition.
Qed.

Lemma has_label_iff (name : string) (records : list dict) :
  has_label name records = true <->
  exists r, In r records /\ dict_get name r <> None.
Proof.
  unfold has_label, labels_of; rewrite existsb_eqb_In.
  assert (G : forall labels,
             In name (fold_left (fun labels d => fold_left add_label (keys d) labels)
                        records labels) <->
             In name labels \/ exists r, In r records /\ dict_get name r <> None).
  { induction records as [|d records IH]; intros labels; simpl.
    - split; [auto | intros [H | (r & [] & _)]; exact H].
    - rewrite IH, In_fold_add_label, In_keys_dict_get; split.
      + intros [[H | H] | (r & Hr & H)]; eauto.
      + intros [H | (r & [<- | Hr] & H)]; eauto. }
  rewrite G; simpl; split; [intros [[] | H]; exact H | auto].
Qed.

Lemma getitem_DataFrame_of (name : string) (records : list dict) :
  getitem name (DataFrame_of records) =
  if has_label name records
  then Some (Extracted name (map (dict_get name) records))
  else None.
Proof.
  unfold getitem, DataFrame_of, has_label.
  induction (labels_of records) as [|k labels IH]; simpl; [reflexivity|].
  rewrite (String.eqb_sym name k).
  destruct (String.eqb k name) eqn:E; simpl.
  - apply String.eqb_eq in E; subst; reflexivity.
  - exact IH.
Qed.

Lemma object_column_DataFrame_of (name : string) (records : list dict) :
  object_column name (DataFrame_of records) =
  if has_label name records
  then Ok (map (dict_get name) records)
  else Raise (KeyError name).
Proof.
  unfold object_column; rewrite getitem_DataFrame_of.
  destruct (has_label name records); reflexivity.
Qed.

Lemma invert_courses (records : list dict) :
  Pandas.invert (Pandas.str_contains ["PE"; "NSTP"] (map (dict_get "Course") records)) =
  if all_courses records then Ok (map not_pe records) else Raise TypeError.
Proof.
  unfold Pandas.str_contains, not_pe.
  induction records as [|r records IH]; [reflexivity|].
  cbn [map all_courses forallb Pandas.invert].
  destruct (dict_get "Course" r) as [course|]; cbn [option_map andb]; [|reflexivity].
  fold (all_courses records).
  rewrite IH, search_pe_or_nstp.
  destruct (all_courses records); reflexivity.
Qed.

Lemma select_units (records : list dict) (p : dict -> bool) (members : list dict) :
  Pandas.select_array (map p members) (Spec.UnitsNumeric records members) =
  Spec.UnitsNumeric records (filter p members).
Proof. apply select_cast. Qed.

Lemma select_weighted (records : list dict) (p : dict -> bool)
    (members : list dict) :
  Pandas.select_array (map p members) (Spec.WeightedGrade records members) =
  Spec.WeightedGrade records (filter p members).
Proof.
  unfold Spec.WeightedGrade, Spec.GradeNumeric, Spec.UnitsNumeric.
  rewrite select_times, !select_cast; reflexivity.
Qed.

Lemma average_of_records (records members : list dict) :
  average_of (map Spec.IsIncluded members) (Spec.UnitsNumeric records members)
    (Spec.WeightedGrade records members) =
  (Spec.total_units records (Spec.included members),
   Spec.gwa records (Spec.included members)).
Proof.
  unfold average_of, Spec.gwa, Spec.total_units, Spec.weighted_sum, Spec.included.
  rewrite select_units, select_weighted; reflexivity.
Qed.

Lemma summary_of_records (rs : list dict) (k : key) :
  summary_of (map Spec.IsIncluded rs) (Spec.UnitsNumeric rs rs)
    (Spec.WeightedGrade rs rs) (map Spec.term rs) k =
  Spec.summary rs k.
Proof.
  unfold summary_of, Spec.summary.
  rewrite map_map.
  change (fun x => has_key k (Spec.term x)) with (Spec.in_term k).
  rewrite select_map, select_units, select_weighted, average_of_records.
  reflexivity.
Qed.

(** A reading that is not null is no NaN, so that the values of a
    float column that are not NaN are those that parse; in an integer
    column every value parses. *)
Lemma read_not_nan (v : option string) :
  isnan (Pandas.as_float (Pandas.read v)) = negb (Spec.parses v).
Proof.
  unfold Spec.parses, Pandas.read.
  destruct v as [[|c s]|]; try reflexivity.
  destruct (Pandas.floatify (String c s)) as [[x maybe_int]|]; [|reflexivity].
  destruct (isnan x) eqn:E; [reflexivity|].
  destruct maybe_int; exact E.
Qed.

Lemma dtype_of_whole (rs : list Pandas.reading) :
  Pandas.dtype_of rs <> Pandas.float64 ->
  forallb Pandas.is_whole rs = true.
Proof.
  unfold Pandas.dtype_of; intros H.
  destruct (existsb (fun r => negb (Pandas.is_whole r)) rs) eqn:E.
  - exfalso; apply H; reflexivity.
  - clear H. induction rs as [|r rs IH]; [reflexivity|].
    simpl in *. apply orb_false_iff in E; destruct E as [E1 E2].
    apply negb_false_iff in E1. rewrite E1, (IH E2); reflexivity.
Qed.

Lemma notna_to_numeric (column : list (option string)) :
  Pandas.notna (Pandas.to_numeric column) = map Spec.parses column.
Proof.
  unfold Pandas.to_numeric.
  destruct (Pandas.dtype_of (map Pandas.read column)) eqn:D;
    cbn [Pandas.cast Pandas.notna]; rewrite !map_map.
  1, 2: assert (W : forallb Pandas.is_whole (map Pandas.read column) = true)
          by (apply dtype_of_whole; rewrite D; discriminate);
        clear D; induction column as [|v column IH]; [reflexivity|];
        simpl in W; apply andb_true_iff in W; destruct W as [W1 W2];
        simpl; rewrite (IH W2); f_equal;
        unfold Spec.parses; destruct (Pandas.read v); try discriminate W1;
        reflexivity.
  apply map_ext; intros v. rewrite read_not_nan, negb_involutive; reflexivity.
Qed.

(** [aggregate] in full: which exception it raises, or what it returns. *)
Lemma aggregate_cases (records : list dict) :
  aggregate records =
  if negb (has_label "Units" records) then Raise (KeyError "Units")
  else if negb (has_label "Grade" records) then Raise (KeyError "Grade")
  else if negb (has_label "Course" records) then Raise (KeyError "Course")
  else if negb (all_courses records) then Raise TypeError
  else if negb (has_label "Year" records) then Raise (KeyError "Year")
  else if negb (has_label "Semester" records) then Raise (KeyError "Semester")
  else Ok (aggregate_result records).
Proof.
  unfold aggregate; rewrite calculate_gwa_unfold; unfold calculate_gwa_flat.
  rewrite !object_column_DataFrame_of.
  destruct (has_label "Units" records); [|reflexivity].
  destruct (has_label "Grade" records); [|reflexivity].
  destruct (has_label "Course" records); [|reflexivity].
  cbn [negb bind]. rewrite invert_courses.
  destruct (all_courses records); [|reflexivity].
  destruct (has_label "Year" records); [|reflexivity].
  destruct (has_label "Semester" records); [|reflexivity].
  cbn [negb bind]. rewrite notna_to_numeric.
  unfold aggregate_result, Pandas.to_numeric, Pandas.and_, row_keys.
  rewrite !map_map, !zip_with_map.
  change (fun x => not_pe x && Spec.parses (dict_get "Grade" x))
    with Spec.IsIncluded.
  change (fun x => Pandas.read (dict_get "Units" x)) with Spec.units_reading.
  change (fun x => Pandas.read (dict_get "Grade" x)) with Spec.grade_reading.
  change (Pandas.cast (Pandas.dtype_of (map Spec.units_reading records))
            (map Spec.units_reading records))
    with (Spec.UnitsNumeric records records).
  change (Pandas.cast (Pandas.dtype_of (map Spec.grade_reading records))
            (map Spec.grade_reading records))
    with (Spec.GradeNumeric records records).
  change (Pandas.times (Spec.GradeNumeric records records)
            (Spec.UnitsNumeric records records))
    with (Spec.WeightedGrade records records).
  change (fun x => row_key (dict_get "Year" x) (dict_get "Semester" x))
    with Spec.term.
  rewrite average_of_records.
  do 2 f_equal. f_equal.
  apply map_ext; intros k; apply summary_of_records.
Qed.

Lemma aggregate_returns (records : list dict) r :
  aggregate records = Ok r ->
  r = aggregate_result records /\ all_courses records = true.
Proof.
  rewrite aggregate_cases.
  destruct (has_label "Units" records); [|discriminate].
  destruct (has_label "Grade" records); [|discriminate].
  destruct (has_label "Course" records); [|discriminate].
  destruct (all_courses records); [|discriminate].
  destruct (has_label "Year" records); [|discriminate].
  destruct (has_label "Semester" records); [|discriminate].
  cbn [negb]; intros [= <-]; auto.
Qed.

Lemma aggregate_returns_labels (records : list dict) r (name : string) :
  aggregate records = Ok r -> In name source_columns ->
  has_label name records = true.
Proof.
  rewrite aggregate_cases.
  destruct (has_label "Units" records) eqn:E1; [|discriminate].
  destruct (has_label "Grade" records) eqn:E2; [|discriminate].
  destruct (has_label "Course" records) eqn:E3; [|discriminate].
  destruct (all_courses records); [|discriminate].
  destruct (has_label "Year" records) eqn:E4; [|discriminate].
  destruct (has_label "Semester" records) eqn:E5; [|discriminate].
  intros _ [<- | [<- | [<- | [<- | [<- | []]]]]]; assumption.
Qed.

Lemma all_courses_In (records : list dict) (r : dict) :
  all_courses records = true -> In r records ->
  exists course, dict_get "Course" r = Some course.
Proof.
  unfold all_courses; rewrite forallb_forall; intros H Hr.
  specialize (H r Hr).
  destruct (dict_get "Course" r) as [course|]; [eauto | discriminate].
Qed.

(** ** Grouping *)

Lemma filter_filter {A : Type} (f g : A -> bool) (l : list A) :
  filter f (filter g l) = filter (fun x => g x && f x) l.
Proof.
  induction l as [|x l IH]; simpl; [reflexivity|].
  destruct (g x); simpl; [destruct (f x)|]; rewrite IH; reflexivity.
Qed.

Lemma fold_observe (ks : list (option key)) (seen : list key) :
  fold_left observe ks seen =
  seen ++ filter (fun k => negb (existsb (key_eqb k) seen)) (Spec.first_occurrences ks).
Proof.
  revert seen; induction ks as [|[k|] ks IH]; intros seen; simpl.
  - rewrite app_nil_r; reflexivity.
  - rewrite IH.
    destruct (existsb (key_eqb k) seen) eqn:E; simpl.
    + f_equal. rewrite filter_filter. apply filter_ext; intros x.
      destruct (key_eqb k x) eqn:Ex; [|reflexivity].
      apply key_eqb_eq in Ex; subst x; rewrite E; reflexivity.
    + rewrite <- app_assoc; simpl. do 2 f_equal.
      rewrite filter_filter. apply filter_ext; intros x.
      rewrite existsb_app; simpl.
      rewrite (key_eqb_sym x k), orb_false_r, negb_orb.
      apply andb_comm.
  - apply IH.
Qed.

Lemma unique_first_occurrences (ks : list (option key)) :
  unique ks = Spec.first_occurrences ks.
Proof.
  unfold unique; rewrite fold_observe; simpl.
  induction (Spec.first_occurrences ks) as [|k l IH]; simpl; congruence.
Qed.

Lemma In_first_occurrences (k : key) (ks : list (option key)) :
  In k (Spec.first_occurrences ks) <-> In (Some k) ks.
Proof.
  induction ks as [|[k'|] ks IH]; simpl.
  - intuition.
  - rewrite filter_In, IH; split.
    + intros [-> | [H _]]; auto.
    + intros [[= ->] | H]; [auto|].
      destruct (key_eqb k' k) eqn:E; [apply key_eqb_eq in E|]; auto.
  - rewrite IH; split; [auto | intros [H | H]; [discriminate | exact H]].
Qed.

Lemma NoDup_filter {A : Type} (f : A -> bool) (l : list A) :
  NoDup l -> NoDup (filter f l).
Proof.
  induction 1 as [|x l Hx Hl IH]; simpl; [constructor|].
  destruct (f x); [constructor|]; auto.
  rewrite filter_In; intros [H _]; auto.
Qed.

Lemma NoDup_first_occurrences (ks : list (option key)) :
  NoDup (Spec.first_occurrences ks).
Proof.
  induction ks as [|[k|] ks IH]; simpl; [constructor| |exact IH].
  constructor; [|apply NoDup_filter; exact IH].
  rewrite filter_In, key_eqb_refl; intros [_ H]; discriminate.
Qed.

Lemma StronglySorted_filter {A : Type} (R : A -> A -> Prop) (f : A -> bool)
    (l : list A) :
  StronglySorted R l -> StronglySorted R (filter f l).
Proof.
  induction 1 as [|x l Hl IH Hx]; simpl; [constructor|].
  destruct (f x); [constructor|]; auto.
  rewrite Forall_forall in *; intros y Hy; apply filter_In in Hy; apply Hx, Hy.
Qed.

Lemma StronglySorted_weaken {A : Type} (R R' : A -> A -> Prop) (l : list A) :
  (forall a b, In a l -> In b l -> R a b -> R' a b) ->
  StronglySorted R l -> StronglySorted R' l.
Proof.
  intros H; induction 1 as [|x l Hl IH Hx]; [constructor|].
  constructor.
  - apply IH; intros a b Ha Hb; apply H; right; assumption.
  - rewrite Forall_forall in *; intros y Hy.
    apply H; [left; reflexivity | right; exact Hy | apply Hx, Hy].
Qed.

Lemma first_occurrences_sorted (ks : list (option key)) :
  StronglySorted (met_before ks) (Spec.first_occurrences ks).
Proof.
  unfold met_before.
  induction ks as [|[k|] ks IH]; simpl; [constructor| |].
  - constructor.
    + apply StronglySorted_filter with (f := fun k' => negb (key_eqb k k')) in IH.
      revert IH; apply StronglySorted_weaken.
      intros a b Ha Hb.
      apply filter_In in Ha, Hb; destruct Ha as [_ Ha], Hb as [_ Hb].
      rewrite (key_eqb_sym a k), (key_eqb_sym b k).
      apply negb_true_iff in Ha, Hb; rewrite Ha, Hb; lia.
    + rewrite Forall_forall; intros x Hx.
      apply filter_In in Hx; destruct Hx as [_ Hx].
      rewrite key_eqb_refl, (key_eqb_sym x k).
      apply negb_true_iff in Hx; rewrite Hx; lia.
  - revert IH; apply StronglySorted_weaken; intros a b _ _; lia.
Qed.

(** ** The weighted average *)

Lemma ltb_zero_is_zero (x : float) : is_zero x = true -> ltb zero x = false.
Proof. destruct x; simpl; intros H; try discriminate; reflexivity. Qed.




Lemma summary_key (rs : list dict) (k : key) :
  (Year (Spec.summary rs k), Semester (Spec.summary rs k)) = k.
Proof. destruct k; reflexivity. Qed.

Lemma summaries_keys (rs : list dict) (l : list key) :
  map (fun t => (Year t, Semester t)) (map (Spec.summary rs) l) = l.
Proof.
  induction l as [|k l IH]; [reflexivity|].
  cbn [map]; rewrite IH, summary_key; reflexivity.
Qed.

(** The two rows of the specification's example: the PE course stays
    out, the term has 3 units and a GWA of 1.0.  Both units are spelled
    as integers, so the total is an integer. *)
Example math1_and_pe1 :
  match aggregate [record_of "MATH1" "1.0" "3" "2023" "FIRST";
                   record_of "PE1" "1.0" "2" "2023" "FIRST"] with
  | Ok (_, sem, g) =>
      map (fun t => (Term t, Units t, GWA t)) sem
        = [("2023 1st Sem", Pandas.I64 3, of_Z 1)]
      /\ g = of_Z 1
  | Raise _ => False
  end.
Proof. vm_compute; split; reflexivity. Qed.

(** Units that are all spelled as integers are kept as int64, exactly,
    and their sum wraps around: two courses of 2^63 - 1 units have -2
    units together, and the 0.0 GWA. *)
Example largest_units_wrap :
  match aggregate largest_units with
  | Ok (df, sem, g) =>
      numeric_column "Units_Calc" df
        = Ok (Pandas.Int64 [9223372036854775807; 9223372036854775807]%Z)
      /\ map (fun t => (Units t, GWA t)) sem = [(Pandas.I64 (-2), zero)]
      /\ g = zero
  | Raise _ => False
  end.
Proof. vm_compute; repeat split; reflexivity. Qed.

(** The string -0 reads as the integer 0 in an integer column and as
    -0.0 in a float column. *)
Example minus_zero :
  Pandas.to_numeric [Some "-0"; Some "1"] = Pandas.Int64 [0; 1]%Z
  /\ Pandas.to_numeric [Some "-0"; Some "1.5"] =
     Pandas.Float64 [neg zero; div (of_Z 3) (of_Z 2)].
Proof. vm_compute; split; reflexivity. Qed.

(** Eight times 1.1: the pairwise sum differs in the last bit from the
    sum taken from left to right. *)
Example eight_times_1_1 :
  match Pandas.to_numeric (repeat (Some "1.1") 8) with
  | Pandas.Float64 xs =>
      Pandas.add_reduce xs = S754_finite false 4953959590107546 (-49)
      /\ fold_left add xs zero = S754_finite false 4953959590107545 (-49)
  | _ => False
  end.
Proof. vm_compute; split; reflexivity. Qed.




(** ** The inclusion flag *)

Lemma bool_column_with_computed I U G W (df : DataFrame) :
  bool_column "Is_Included" (with_computed I U G W df) = Ok I.
Proof. unfold bool_column, with_computed; read_columns; reflexivity. Qed.

Lemma Forall2_map_r {A B : Type} (P : A -> B -> Prop) (f : A -> B) (l : list A) :
  (forall x, In x l -> P x (f x)) -> Forall2 P l (map f l).
Proof.
  induction l as [|x l IH]; simpl; intros H; constructor; auto.
Qed.

Lemma IsIncluded_iff (r : dict) (course : string) :
  dict_get "Course" r = Some course ->
  Spec.IsIncluded r = true <->
  Spec.pe_or_nstp course = false /\ Spec.parses (dict_get "Grade" r) = true.
Proof.
  unfold Spec.IsIncluded; intros ->.
  rewrite andb_true_iff, negb_true_iff; reflexivity.
Qed.

(** C2.  When [aggregate] returns, the [Is_Included] column holds one
    flag per record, and the flag of a record is true exactly when its
    course does not start with PE or NSTP, whatever the case, and its
    grade parses to a number.  A record whose course is PE101 or nstp1
    in any case is not included, nor is a record whose grade is INC. *)
Theorem included_iff_not_pe_and_graded (records : list dict) (df : DataFrame)
    (sem : list TermSummary) (g : float) :
  aggregate records = Ok (df, sem, g) ->
  exists flags,
    bool_column "Is_Included" df = Ok flags
    /\ Forall2
         (fun r flag =>
            exists course,
              dict_get "Course" r = Some course
              /\ (flag = true <->
                  Spec.pe_or_nstp course = false
                  /\ Spec.parses (dict_get "Grade" r) = true)
              /\ (Spec.lower course = "pe101" \/ Spec.lower course = "nstp1" ->
                  flag = false)
              /\ (dict_get "Grade" r = Some "INC" -> flag = false))
         records flags.
Proof.
  intros H; apply aggregate_returns in H; destruct H as [H Hc].
  unfold aggregate_result in H; injection H as -> -> ->.
  exists (map Spec.IsIncluded records); split.
  - apply bool_column_with_computed.
  - apply Forall2_map_r; intros r Hr.
    destruct (all_courses_In _ _ Hc Hr) as [course E].
    exists course; split; [exact E|].
    split; [apply IsIncluded_iff; exact E|].
    unfold Spec.IsIncluded, Spec.pe_or_nstp; rewrite E; split.
    + intros [-> | ->]; reflexivity.
    + intros ->; apply andb_false_r.
Qed.

Lemma included_iff_not_pe_and_graded_witness :
  bool_column "Is_Included" sample_frame = Ok [true; false; true; false; true].
Proof.
  destruct (included_iff_not_pe_and_graded sample sample_frame sample_terms
              sample_gwa) as (flags & H & _).
  - vm_compute; reflexivity.
  - vm_compute; reflexivity.
Defined.

(** ** Exceptions *)

(** C3, the claim as stated fails on the empty sequence: the frame has
    no [Units] column and reading it raises. *)
Lemma aggregate_empty_raises :
  aggregate [] = Raise (KeyError "Units")
  /\ ~ exists r, aggregate [] = Ok r.
Proof.
  split; [reflexivity|].
  intros [r H]; discriminate H.
Qed.

Lemma has_label_false (name : string) (records : list dict) :
  (forall r, In r records -> dict_get name r = None) ->
  has_label name records = false.
Proof.
  intros H; destruct (has_label name records) eqn:E; [|reflexivity].
  apply has_label_iff in E; destruct E as (r & Hr & Hn).
  rewrite (H r Hr) in Hn; contradiction.
Qed.

Lemma has_label_none (name : string) (records : list dict) :
  has_label name records = false <->
  forall r, In r records -> dict_get name r = None.
Proof.
  split; [|apply has_label_false].
  intros H r Hr; destruct (dict_get name r) eqn:E; [|reflexivity].
  assert (T : has_label name records = true)
    by (apply has_label_iff; exists r; split; [exact Hr | congruence]).
  congruence.
Qed.

Lemma all_courses_false (records : list dict) :
  all_courses records = false ->
  exists r, In r records /\ dict_get "Course" r = None.
Proof.
  unfold all_courses; induction records as [|r records IH]; simpl; [discriminate|].
  destruct (dict_get "Course" r) eqn:E; simpl.
  - intros H; destruct (IH H) as (r' & Hr' & H'); eauto.
  - intros _; eauto.
Qed.

(** C3, amended.  [aggregate] returns normally on every record sequence
    in which each of Units, Grade, Course, Year and Semester occurs in
    at least one record and every record has a Course; records may lack
    any of the other four fields.  When one of the five fields occurs
    in no record it raises: a [KeyError] that names one of the five
    fields, one that occurs in no record, or a [TypeError] when some
    record has no Course.  On the empty sequence it raises the
    [KeyError] of Units. *)
Theorem aggregate_returns_with_columns (records : list dict) :
  ((forall name, In name source_columns ->
      exists r, In r records /\ dict_get name r <> None) ->
   (forall r, In r records -> dict_get "Course" r <> None) ->
   aggregate records = Ok (aggregate_result records))
  /\ (forall name, In name source_columns ->
      (forall r, In r records -> dict_get name r = None) ->
      (exists missing,
          aggregate records = Raise (KeyError missing)
          /\ In missing source_columns
          /\ forall r, In r records -> dict_get missing r = None)
      \/ (aggregate records = Raise TypeError
          /\ exists r, In r records /\ dict_get "Course" r = None))
  /\ (records = [] -> aggregate records = Raise (KeyError "Units")).
Proof.
  split; [|split].
  - intros Hl Hc. rewrite aggregate_cases.
    assert (L : forall name, In name source_columns -> has_label name records = true).
    { intros name Hn; apply has_label_iff, Hl, Hn. }
    rewrite !L by (simpl; auto 6).
    assert (C : all_courses records = true).
    { apply forallb_forall; intros r Hr; specialize (Hc r Hr).
      destruct (dict_get "Course" r); [reflexivity | contradiction]. }
    rewrite C; reflexivity.
  - intros name Hn Hnone. apply has_label_false in Hnone.
    rewrite aggregate_cases.
    destruct (has_label "Units" records) eqn:E1; cbn [negb];
      [|left; exists "Units"; split; [reflexivity|];
        split; [simpl; auto | apply has_label_none, E1]].
    destruct (has_label "Grade" records) eqn:E2; cbn [negb];
      [|left; exists "Grade"; split; [reflexivity|];
        split; [simpl; auto | apply has_label_none, E2]].
    destruct (has_label "Course" records) eqn:E3; cbn [negb];
      [|left; exists "Course"; split; [reflexivity|];
        split; [simpl; auto | apply has_label_none, E3]].
    destruct (all_courses records) eqn:E4; cbn [negb];
      [|right; split; [reflexivity | apply all_courses_false, E4]].
    destruct (has_label "Year" records) eqn:E5; cbn [negb];
      [|left; exists "Year"; split; [reflexivity|];
        split; [simpl; auto 6 | apply has_label_none, E5]].
    destruct (has_label "Semester" records) eqn:E6; cbn [negb];
      [|left; exists "Semester"; split; [reflexivity|];
        split; [simpl; auto 6 | apply has_label_none, E6]].
    exfalso.
    simpl in Hn; destruct Hn as [<- | [<- | [<- | [<- | [<- | []]]]]]; congruence.
  - intros ->; reflexivity.
Qed.

Lemma aggregate_returns_with_columns_witness :
  aggregate partial_records = Ok (aggregate_result partial_records)
  /\ ((exists missing,
          aggregate course_only = Raise (KeyError missing)
          /\ In missing source_columns
          /\ forall r, In r course_only -> dict_get missing r = None)
      \/ (aggregate course_only = Raise TypeError
          /\ exists r, In r course_only /\ dict_get "Course" r = None))
  /\ aggregate [] = Raise (KeyError "Units").
Proof.
  split; [|split].
  - apply (proj1 (aggregate_returns_with_columns partial_records)).
    + intros name Hn; exists (record_of "MATH1" "1.0" "3" "2023" "FIRST").
      split; [left; reflexivity|].
      simpl in Hn; destruct Hn as [<- | [<- | [<- | [<- | [<- | []]]]]]; discriminate.
    + intros r [<- | [<- | []]]; discriminate.
  - apply (proj1 (proj2 (aggregate_returns_with_columns course_only)) "Units").
    + left; reflexivity.
    + intros r [<- | []]; reflexivity.
  - apply (proj2 (proj2 (aggregate_returns_with_columns []))); reflexivity.
Defined.

(** ** Term summaries *)

Lemma In_term_Some (k : key) (records : list dict) :
  In (Some k) (map Spec.term records) <->
  exists r, In r records /\ Spec.term r = Some k.
Proof.
  rewrite in_map_iff; split; intros (r & H1 & H2); exists r; auto.
Qed.

(** C4.  When [aggregate] returns, the term summaries carry pairwise
    distinct (Year, Semester) pairs, a pair has a summary exactly when
    some record has that pair, the summaries come in the order in which
    their pairs are first met in the input, and each summary is
    computed from all the records of the input that have its pair,
    wherever they stand. *)
Theorem one_summary_per_term_first_seen (records : list dict) (df : DataFrame)
    (sem : list TermSummary) (g : float) :
  aggregate records = Ok (df, sem, g) ->
  let terms := map (fun t => (Year t, Semester t)) sem in
  NoDup terms
  /\ (forall k, In k terms <-> exists r, In r records /\ Spec.term r = Some k)
  /\ StronglySorted (met_before (map Spec.term records)) terms
  /\ Forall
       (fun t =>
          let members :=
            filter (fun r => has_key (Year t, Semester t) (Spec.term r)) records in
          Units t = Spec.total_units records (Spec.included members)
          /\ GWA t = Spec.gwa records (Spec.included members))
       sem.
Proof.
  intros H; apply aggregate_returns in H; destruct H as [H _].
  unfold aggregate_result in H; injection H as -> -> ->.
  cbv zeta. rewrite summaries_keys, unique_first_occurrences.
  split; [apply NoDup_first_occurrences|].
  split; [intros k; rewrite In_first_occurrences; apply In_term_Some|].
  split; [apply first_occurrences_sorted|].
  rewrite Forall_forall; intros t Ht.
  apply in_map_iff in Ht; destruct Ht as (k & <- & _).
  rewrite summary_key; split; reflexivity.
Qed.

Lemma one_summary_per_term_first_seen_witness :
  map (fun t => (Year t, Semester t)) sample_terms =
    [("2023", "FIRST"); ("2024", "SECOND")]
  /\ NoDup (map (fun t => (Year t, Semester t)) sample_terms)
  /\ map Units sample_terms = [Pandas.F64 (of_Z 6); Pandas.F64 zero].
Proof.
  destruct (one_summary_per_term_first_seen sample sample_frame sample_terms
              sample_gwa) as (Hn & _).
  - vm_compute; reflexivity.
  - split; [vm_compute; reflexivity|].
    split; [exact Hn | vm_compute; reflexivity].
Defined.

(** ** Running twice, and what the call changes *)

Lemma calculate_gwa_returns (df df' : DataFrame) (sem : list TermSummary)
    (g : float) :
  calculate_gwa df = Ok (df', sem, g) ->
  exists units grade course not_pe year semester,
    object_column "Units" df = Ok units
    /\ object_column "Grade" df = Ok grade
    /\ object_column "Course" df = Ok course
    /\ Pandas.invert (Pandas.str_contains ["PE"; "NSTP"] course) = Ok not_pe
    /\ object_column "Year" df = Ok year
    /\ object_column "Semester" df = Ok semester
    /\ let U := Pandas.to_numeric units in
       let G := Pandas.to_numeric grade in
       let I := Pandas.and_ not_pe (Pandas.notna G) in
       let W := Pandas.times G U in
       let ks := row_keys year semester in
       df' = with_computed I U G W df
       /\ sem = map (summary_of I U W ks) (unique ks)
       /\ g = snd (average_of I U W).
Proof.
  rewrite calculate_gwa_unfold; unfold calculate_gwa_flat.
  destruct (object_column "Units" df) as [units|]; [|discriminate].
  destruct (object_column "Grade" df) as [grade|]; [|discriminate].
  destruct (object_column "Course" df) as [course|]; [|discriminate].
  cbn [bind].
  destruct (Pandas.invert _) as [not_pe|] eqn:Hi; [|discriminate].
  destruct (object_column "Year" df) as [year|]; [|discriminate].
  destruct (object_column "Semester" df) as [semester|]; [|discriminate].
  cbn [bind]; intros [= <- <- <-].
  exists units, grade, course, not_pe, year, semester.
  repeat split; try reflexivity; exact Hi.
Qed.

Lemma with_computed_again I U G W (df : DataFrame) :
  with_computed I U G W (with_computed I U G W df) = with_computed I U G W df.
Proof.
  unfold with_computed at 1.
  rewrite (setitem_same (Units_Calc U))
    by (unfold with_computed; read_columns; reflexivity).
  rewrite (setitem_same (Grade_Calc G))
    by (unfold with_computed; read_columns; reflexivity).
  rewrite (setitem_same (Is_Included I))
    by (unfold with_computed; read_columns; reflexivity).
  apply setitem_same; unfold with_computed; read_columns; reflexivity.
Qed.

(** C8.  The call leaves its results in the frame it was given; when
    it returns, a second call on that same frame returns the same
    frame, the same term summaries and the same overall GWA. *)
Theorem calculate_gwa_twice (df df' : DataFrame) (sem : list TermSummary)
    (g : float) :
  calculate_gwa df = Ok (df', sem, g) ->
  calculate_gwa df' = Ok (df', sem, g).
Proof.
  intros H; apply calculate_gwa_returns in H.
  destruct H as (units & grade & course & not_pe & year & semester
                 & Hu & Hg & Hc & Hi & Hy & Hs & H).
  cbv zeta in H; destruct H as (-> & -> & ->).
  rewrite calculate_gwa_unfold; unfold calculate_gwa_flat.
  rewrite !object_column_with_computed by reflexivity.
  rewrite Hu, Hg, Hc; cbn [bind]; rewrite Hi, Hy, Hs; cbn [bind].
  rewrite with_computed_again; reflexivity.
Qed.

Lemma calculate_gwa_twice_witness :
  calculate_gwa sample_frame = Ok (sample_frame, sample_terms, sample_gwa).
Proof.
  apply (calculate_gwa_twice (DataFrame_of sample)).
  vm_compute; reflexivity.
Defined.

Lemma getitem_app (name : string) (df df' : DataFrame) :
  getitem name (df ++ df') =
  match getitem name df with
  | Some c => Some c
  | None => getitem name df'
  end.
Proof.
  unfold getitem; induction df as [|c df IH]; simpl; [reflexivity|].
  destruct (String.eqb (column_name c) name); [reflexivity | exact IH].
Qed.

Lemma setitem_new (c : column) (df : DataFrame) :
  getitem (column_name c) df = None -> setitem c df = df ++ [c].
Proof.
  unfold getitem; induction df as [|c' df IH]; simpl; [reflexivity|].
  destruct (String.eqb (column_name c') (column_name c)); [discriminate|].
  intros H; rewrite (IH H); reflexivity.
Qed.

Lemma getitem_with_computed (name : string) I U G W (df : DataFrame) :
  ~ In name computed_columns ->
  getitem name (with_computed I U G W df) = getitem name df.
Proof.
  intros H; unfold with_computed; rewrite !getitem_setitem; cbn [column_name].
  repeat match goal with
         | |- context [String.eqb ?a name] =>
             destruct (String.eqb a name) eqn:E;
             [apply String.eqb_eq in E; subst name; exfalso; apply H; simpl; auto 6
             |clear E]
         end.
  reflexivity.
Qed.

Lemma with_computed_new I U G W (df : DataFrame) :
  (forall name, In name computed_columns -> getitem name df = None) ->
  with_computed I U G W df =
  df ++ [Units_Calc U; Grade_Calc G; Is_Included I; Weighted_Grade W].
Proof.
  intros H; unfold with_computed.
  rewrite (setitem_new (Units_Calc U)) by (apply H; simpl; auto).
  rewrite (setitem_new (Grade_Calc G))
    by (rewrite getitem_app, H by (simpl; auto); reflexivity).
  rewrite (setitem_new (Is_Included I))
    by (rewrite !getitem_app, H by (simpl; auto); reflexivity).
  rewrite (setitem_new (Weighted_Grade W))
    by (rewrite !getitem_app, H by (simpl; auto 6); reflexivity).
  rewrite <- !app_assoc; reflexivity.
Qed.

(** C10, the claim as stated fails when the document has a column
    named like a computed one: the call returns, the frame gains three
    columns and not four, and the extracted column is overwritten. *)
Lemma extracted_column_overwritten :
  exists df sem g,
    aggregate collision = Ok (df, sem, g)
    /\ getitem "Is_Included" (DataFrame_of collision) =
       Some (Extracted "Is_Included" [Some "yes"])
    /\ getitem "Is_Included" df = Some (Is_Included [true])
    /\ List.length df = 3 + List.length (DataFrame_of collision).
Proof.
  eexists _, _, _; split; [vm_compute; reflexivity|].
  repeat split; vm_compute; reflexivity.
Qed.

(** C10, amended.  The frame that [calculate_gwa] returns is the frame
    it was given with the four computed columns assigned: a column
    whose name is not one of the four keeps its place and its values,
    row by row; each of the four names holds the computed values,
    replacing in place a column that already had the name and coming
    last otherwise.  When the given frame has none of the four names,
    the result is that frame followed by the four computed columns. *)
Theorem calculate_gwa_frame (df df' : DataFrame) (sem : list TermSummary)
    (g : float) :
  calculate_gwa df = Ok (df', sem, g) ->
  exists U G I W,
    map column_name df' = fold_left add_label computed_columns (map column_name df)
    /\ (forall name, ~ In name computed_columns ->
        getitem name df' = getitem name df)
    /\ getitem "Units_Calc" df' = Some (Units_Calc U)
    /\ getitem "Grade_Calc" df' = Some (Grade_Calc G)
    /\ getitem "Is_Included" df' = Some (Is_Included I)
    /\ getitem "Weighted_Grade" df' = Some (Weighted_Grade W)
    /\ ((forall name, In name computed_columns -> getitem name df = None) ->
        df' = df ++ [Units_Calc U; Grade_Calc G; Is_Included I; Weighted_Grade W]).
Proof.
  intros H; apply calculate_gwa_returns in H.
  destruct H as (units & grade & course & not_pe & year & semester
                 & _ & _ & _ & _ & _ & _ & H).
  cbv zeta in H; destruct H as (-> & _ & _).
  eexists _, _, _, _.
  split; [unfold with_computed; rewrite !labels_setitem; reflexivity|].
  split; [intros name; apply getitem_with_computed|].
  repeat (split; [unfold with_computed; read_columns; reflexivity|]).
  apply with_computed_new.
Qed.

Lemma calculate_gwa_frame_witness :
  map column_name sample_frame =
    ["Course"; "Grade"; "Units"; "Year"; "Semester";
     "Units_Calc"; "Grade_Calc"; "Is_Included"; "Weighted_Grade"]
  /\ getitem "Grade" sample_frame = getitem "Grade" (DataFrame_of sample).
Proof.
  destruct (calculate_gwa_frame (DataFrame_of sample) sample_frame sample_terms
              sample_gwa) as (U & G & I & W & Hl & Hk & _).
  - vm_compute; reflexivity.
  - split; [rewrite Hl; vm_compute; reflexivity|].
    apply Hk; simpl; intros [H | [H | [H | [H | []]]]]; discriminate H.
Defined.

(** ** Sums that skip NaN *)

Lemma filter_all {A : Type} (p : A -> bool) (l : list A) :
  (forall x, In x l -> p x = true) -> filter p l = l.
Proof.
  induction l as [|x l IH]; intros H; [reflexivity|].
  simpl; rewrite (H x (or_introl eq_refl)), IH; [reflexivity|].
  intros y Hy; apply H; right; exact Hy.
Qed.

Lemma same_number_refl (x : float) : Spec.same_number x x.
Proof. left; reflexivity. Qed.

Lemma same_number_trans (x y z : float) :
  Spec.same_number x y -> Spec.same_number y z -> Spec.same_number x z.
Proof.
  unfold Spec.same_number.
  intros [-> | [Hx Hy]] [-> | [Hy' Hz]]; auto.
Qed.

Lemma add_same_number (a a' x : float) :
  Spec.same_number a a' -> Spec.same_number (add a x) (add a' x).
Proof.
  intros [-> | [Ha Ha']]; [apply same_number_refl|].
  destruct a as [s| | |]; try discriminate Ha.
  destruct a' as [s'| | |]; try discriminate Ha'.
  destruct x as [sx|sx| |sx m e]; unfold add; cbn [SFadd];
    try (left; reflexivity).
  right; destruct s, s', sx; simpl; auto.
Qed.

Lemma add_zero_same_number (a : float) : Spec.same_number (add a zero) a.
Proof.
  destruct a as [s|s| |s m e]; unfold add, zero; cbn [SFadd];
    try (left; reflexivity).
  right; destruct s; simpl; auto.
Qed.

Lemma same_number_sym (x y : float) :
  Spec.same_number x y -> Spec.same_number y x.
Proof. intros [-> | [Hx Hy]]; [left | right]; auto. Qed.

Lemma fold_add_same_number (xs : list float) (a a' : float) :
  Spec.same_number a a' ->
  Spec.same_number (fold_left add xs a) (fold_left add xs a').
Proof.
  revert a a'; induction xs as [|x xs IH]; intros a a' H; simpl; [exact H|].
  apply IH, add_same_number, H.
Qed.

Lemma fold_add_skips {A : Type} (f : A -> float) (p : A -> bool) (l : list A) :
  (forall x, In x l -> p x = false -> isnan (f x) = true) ->
  forall a a', Spec.same_number a a' ->
  Spec.same_number
    (fold_left add (map Pandas.nan_to_zero (map f l)) a)
    (fold_left add (map Pandas.nan_to_zero (map f (filter p l))) a').
Proof.
  induction l as [|x l IH]; intros H a a' Ha; simpl; [exact Ha|].
  destruct (p x) eqn:E; simpl.
  - apply IH; [intros y Hy; apply H; right; exact Hy|].
    apply add_same_number; exact Ha.
  - apply IH; [intros y Hy; apply H; right; exact Hy|].
    unfold Pandas.nan_to_zero at 1.
    rewrite (H x (or_introl eq_refl) E).
    eapply same_number_trans; [apply add_zero_same_number | exact Ha].
Qed.

Lemma add_neg_zero (x : float) : add (neg zero) x = x.
Proof. destruct x as [[|]|[|]| |s m e]; reflexivity. Qed.

(** The bound on the number of splits does not matter once it is the
    length of the array. *)
Lemma pairwise_sum_depth (depth depth' : nat) (xs : list float) :
  List.length xs <= depth -> List.length xs <= depth' ->
  Pandas.pairwise_sum depth xs = Pandas.pairwise_sum depth' xs.
Proof.
  revert depth' xs; induction depth as [|depth IH]; intros [|depth'] xs L L';
    cbn [Pandas.pairwise_sum]; try reflexivity.
  - destruct (Nat.leb_spec (List.length xs) 128); [reflexivity | lia].
  - destruct (Nat.leb_spec (List.length xs) 128); [reflexivity | lia].
  - destruct (Nat.leb_spec (List.length xs) 128) as [_ | B]; [reflexivity|].
    set (n := List.length xs) in *.
    pose proof (Nat.div_mod_eq n 2) as D2.
    pose proof (Nat.mod_upper_bound n 2 ltac:(lia)) as M2.
    pose proof (Nat.mod_upper_bound (n / 2) 8 ltac:(lia)) as M8.
    rewrite (IH depth' (firstn _ xs)), (IH depth' (skipn _ xs));
      [reflexivity|..];
      rewrite ?length_firstn, ?length_skipn; fold n; lia.
Qed.

(** Fewer than eight elements are summed from left to right. *)
Lemma block_sum_short (xs : list float) :
  List.length xs < 8 -> Pandas.block_sum xs = fold_left add xs (neg zero).
Proof.
  do 8 (destruct xs as [|? xs]; [reflexivity|]).
  simpl; lia.
Qed.

Lemma pairwise_sum_short (depth : nat) (xs : list float) :
  List.length xs < 8 -> Pandas.pairwise_sum depth xs = fold_left add xs (neg zero).
Proof.
  intros H; destruct depth as [|depth]; cbn [Pandas.pairwise_sum];
    [apply block_sum_short, H|].
  destruct (Nat.leb_spec (List.length xs) 128) as [_ | L]; [|lia].
  apply block_sum_short, H.
Qed.

Lemma add_reduce_short (xs : list float) :
  List.length xs < 8 ->
  Spec.same_number (Pandas.add_reduce xs) (fold_left add xs zero).
Proof.
  intros H; destruct xs as [|x xs]; [apply same_number_refl|].
  unfold Pandas.add_reduce.
  rewrite add_neg_zero, pairwise_sum_short by exact H.
  apply fold_add_same_number; right; split; reflexivity.
Qed.

Lemma length_filter_le {A : Type} (p : A -> bool) (l : list A) :
  List.length (filter p l) <= List.length l.
Proof.
  induction l as [|x l IH]; simpl; [lia|].
  destruct (p x); simpl; lia.
Qed.

(** In a float sum of fewer than eight values, the values that are NaN
    can be left out. *)
Lemma sum_skips {A : Type} (f : A -> float) (p : A -> bool) (l : list A) :
  (forall x, In x l -> p x = false -> isnan (f x) = true) ->
  List.length l < 8 ->
  Spec.same_number
    (Pandas.add_reduce (map Pandas.nan_to_zero (map f l)))
    (Pandas.add_reduce (map Pandas.nan_to_zero (map f (filter p l)))).
Proof.
  intros H L.
  eapply same_number_trans;
    [apply add_reduce_short; rewrite !length_map; exact L|].
  eapply same_number_trans;
    [|apply same_number_sym, add_reduce_short; rewrite !length_map;
      pose proof (length_filter_le p l); lia].
  apply fold_add_skips; [exact H | apply same_number_refl].
Qed.

(** A sum of zeros is zero, however long. *)
Lemma fold_add_zeros (xs : list float) :
  Forall (eq zero) xs -> fold_left add xs zero = zero.
Proof.
  induction 1 as [|x xs <- _ IH]; [reflexivity | exact IH].
Qed.

Lemma unrolled_zeros (n : nat) (xs : list float) :
  List.length xs <= n -> Forall (eq zero) xs ->
  exists rest,
    Pandas.unrolled (Pandas.Lanes zero zero zero zero zero zero zero zero) xs =
    (Pandas.Lanes zero zero zero zero zero zero zero zero, rest)
    /\ Forall (eq zero) rest.
Proof.
  revert xs; induction n as [|n IH]; intros xs L H.
  - destruct xs; [|simpl in L; lia]. exists []; split; [reflexivity | constructor].
  - do 8 (destruct xs as [|? xs]; [eexists; split; [reflexivity | exact H]|]).
    do 8 (apply Forall_cons_iff in H; destruct H as [<- H]).
    cbn [Pandas.unrolled]. change (add zero zero) with zero.
    apply IH; [simpl in L; lia | exact H].
Qed.

Lemma block_sum_zeros (xs : list float) :
  xs <> [] -> Forall (eq zero) xs -> Pandas.block_sum xs = zero.
Proof.
  intros N H.
  destruct xs as [|x0 xs]; [contradiction|].
  assert (S : fold_left add (x0 :: xs) (neg zero) = zero).
  { apply Forall_cons_iff in H; destruct H as [<- H].
    cbn [fold_left]. change (add (neg zero) zero) with zero.
    apply fold_add_zeros, H. }
  do 7 (destruct xs as [|? xs]; [exact S|]). clear S N.
  do 8 (apply Forall_cons_iff in H; destruct H as [<- H]).
  cbn [Pandas.block_sum].
  destruct (unrolled_zeros (List.length xs) xs (le_n _) H) as (rest & -> & Hr).
  change (add zero zero) with zero.
  apply fold_add_zeros, Hr.
Qed.

Lemma pairwise_sum_zeros (depth : nat) (xs : list float) :
  xs <> [] -> Forall (eq zero) xs -> Pandas.pairwise_sum depth xs = zero.
Proof.
  revert xs; induction depth as [|depth IH]; intros xs N H;
    cbn [Pandas.pairwise_sum]; [apply block_sum_zeros; assumption|].
  destruct (Nat.leb_spec (List.length xs) 128) as [_ | L];
    [apply block_sum_zeros; assumption|].
  set (n := List.length xs) in *.
  set (n2 := n / 2 - (n / 2) mod 8).
  assert (B : 0 < n2 < n).
  { pose proof (Nat.div_mod_eq n 2) as D2.
    pose proof (Nat.mod_upper_bound n 2 ltac:(lia)) as M2.
    pose proof (Nat.mod_upper_bound (n / 2) 8 ltac:(lia)) as M8.
    unfold n2; lia. }
  assert (F : Forall (eq zero) (firstn n2 xs) /\ Forall (eq zero) (skipn n2 xs))
    by (apply Forall_app; rewrite firstn_skipn; exact H).
  rewrite !IH.
  - reflexivity.
  - intros E. apply (f_equal (@List.length float)) in E.
    rewrite length_skipn in E; simpl in E. fold n in E. lia.
  - apply F.
  - intros E. apply (f_equal (@List.length float)) in E.
    rewrite length_firstn in E; simpl in E. fold n in E. lia.
  - apply F.
Qed.

Lemma add_reduce_zeros (xs : list float) :
  Forall (eq zero) xs -> Pandas.add_reduce xs = zero.
Proof.
  intros H; destruct xs as [|x xs]; [reflexivity|].
  unfold Pandas.add_reduce.
  rewrite pairwise_sum_zeros; [reflexivity | discriminate | exact H].
Qed.

Lemma quotient_same_number (tu tu' ws ws' : float) :
  Spec.same_number tu tu' -> Spec.same_number ws ws' ->
  Spec.same_number
    (if ltb zero tu then div ws tu else zero)
    (if ltb zero tu' then div ws' tu' else zero).
Proof.
  intros [-> | [Ht Ht']].
  - intros [-> | [Hw Hw']]; [apply same_number_refl|].
    destruct (ltb zero tu') eqn:E; [|apply same_number_refl].
    destruct ws as [s| | |]; try discriminate Hw.
    destruct ws' as [s'| | |]; try discriminate Hw'.
    destruct tu' as [st|st| |st m e]; try discriminate E;
      right; unfold div; cbn [SFdiv]; auto.
  - intros _.
    rewrite (ltb_zero_is_zero _ Ht), (ltb_zero_is_zero _ Ht').
    apply same_number_refl.
Qed.

(** *** The columns of a transcript in which some units do not parse *)

Lemma mul_nan (x : float) : mul x nan = nan.
Proof. destruct x; reflexivity. Qed.

Lemma uncounted_nan (r : dict) :
  counted r = false -> Pandas.as_float (Spec.units_reading r) = nan.
Proof.
  unfold counted, Spec.parses, Spec.units_reading.
  destruct (Pandas.read (dict_get "Units" r)); [reflexivity | discriminate..].
Qed.

Lemma uncounted_float64 (records : list dict) (r : dict) :
  In r records -> counted r = false ->
  Spec.units_dtype records = Pandas.float64.
Proof.
  intros Hr Hc.
  unfold Spec.units_dtype, Pandas.dtype_of.
  replace (existsb (fun r => negb (Pandas.is_whole r))
             (map Spec.units_reading records)) with true; [reflexivity|].
  symmetry; apply existsb_exists.
  exists (Spec.units_reading r); split; [apply in_map, Hr|].
  unfold counted, Spec.parses in Hc. unfold Spec.units_reading.
  destruct (Pandas.read (dict_get "Units" r)); [reflexivity | discriminate..].
Qed.

Lemma to_floats_cast (d : Pandas.dtype) (rs : list Pandas.reading) :
  Pandas.to_floats (Pandas.cast d rs) = map (float_in d) rs.
Proof. destruct d; cbn [Pandas.cast Pandas.to_floats]; rewrite ?map_map; reflexivity. Qed.

Lemma units_float64 (records members : list dict) :
  Spec.units_dtype records = Pandas.float64 ->
  Spec.UnitsNumeric records members =
  Pandas.Float64 (map (fun r => Pandas.as_float (Spec.units_reading r)) members).
Proof.
  unfold Spec.UnitsNumeric; intros ->; cbn [Pandas.cast].
  rewrite map_map; reflexivity.
Qed.

Lemma weighted_float64 (records members : list dict) :
  Spec.units_dtype records = Pandas.float64 ->
  Spec.WeightedGrade records members =
  Pandas.Float64
    (map (fun r => mul (float_in (Spec.grade_dtype records) (Spec.grade_reading r))
                     (Pandas.as_float (Spec.units_reading r))) members).
Proof.
  intros H; unfold Spec.WeightedGrade.
  rewrite (units_float64 _ _ H).
  assert (E : forall a ys, Pandas.times a (Pandas.Float64 ys) =
                           Pandas.Float64 (Pandas.zip_with mul (Pandas.to_floats a) ys))
    by (intros [xs|xs|xs] ys; reflexivity).
  rewrite E. unfold Spec.GradeNumeric.
  rewrite to_floats_cast, map_map, zip_with_map; reflexivity.
Qed.

Lemma all_counted (members : list dict) :
  forallb counted members = true -> filter counted members = members.
Proof.
  intros H; apply filter_all; intros r Hr.
  exact (proj1 (forallb_forall _ _) H r Hr).
Qed.

Lemma some_uncounted (records members : list dict) :
  incl members records -> forallb counted members = false ->
  Spec.units_dtype records = Pandas.float64.
Proof.
  intros Hi H.
  assert (E : existsb (fun r => negb (counted r)) members = true).
  { clear Hi; induction members as [|r members IH]; [discriminate|].
    simpl in *. destruct (counted r); [exact (IH H) | reflexivity]. }
  apply existsb_exists in E; destruct E as (r & Hr & Hc).
  apply negb_true_iff in Hc.
  exact (uncounted_float64 records r (Hi r Hr) Hc).
Qed.

Lemma total_units_skips (records members : list dict) :
  incl members records -> List.length members < 8 ->
  Spec.same_number (Pandas.to_float (Spec.total_units records members))
    (Pandas.to_float (Spec.total_units records (filter counted members))).
Proof.
  intros Hi L.
  destruct (forallb counted members) eqn:C;
    [rewrite (all_counted _ C); apply same_number_refl|].
  pose proof (some_uncounted _ _ Hi C) as D.
  unfold Spec.total_units; rewrite !(units_float64 _ _ D).
  cbn [Pandas.sum Pandas.to_float].
  apply sum_skips; [|exact L].
  intros r _ Hr; rewrite (uncounted_nan r Hr); reflexivity.
Qed.

Lemma gwa_skips (records members : list dict) :
  incl members records -> List.length members < 8 ->
  Spec.same_number (Spec.gwa records members)
    (Spec.gwa records (filter counted members)).
Proof.
  intros Hi L.
  destruct (forallb counted members) eqn:C;
    [rewrite (all_counted _ C); apply same_number_refl|].
  pose proof (some_uncounted _ _ Hi C) as D.
  unfold Spec.gwa, Spec.total_units, Spec.weighted_sum.
  rewrite !(units_float64 _ _ D), !(weighted_float64 _ _ D).
  cbn [Pandas.sum Pandas.positive Pandas.true_divide Pandas.to_float].
  apply quotient_same_number; (apply sum_skips; [|exact L]);
    intros r _ Hr; rewrite (uncounted_nan r Hr); [|rewrite mul_nan]; reflexivity.
Qed.

Lemma total_units_uncounted (records members : list dict) :
  incl members records ->
  (forall r, In r members -> counted r = false) ->
  Spec.total_units records members = zero_of (Spec.units_dtype records)
  /\ (members <> [] -> Spec.total_units records members = Pandas.F64 zero).
Proof.
  intros Hi H.
  destruct members as [|r members].
  - split; [|contradiction].
    unfold Spec.total_units, Spec.UnitsNumeric.
    destruct (Spec.units_dtype records); reflexivity.
  - pose proof (uncounted_float64 records r (Hi r (or_introl eq_refl))
                  (H r (or_introl eq_refl))) as D.
    assert (E : Spec.total_units records (r :: members) = Pandas.F64 zero).
    { unfold Spec.total_units; rewrite (units_float64 _ _ D).
      cbn [Pandas.sum]. f_equal.
      apply add_reduce_zeros.
      rewrite map_map; apply Forall_map, Forall_forall; intros x Hx.
      rewrite (uncounted_nan x (H x Hx)); reflexivity. }
    rewrite E, D; split; reflexivity.
Qed.

Lemma zero_of_not_positive (d : Pandas.dtype) : Pandas.positive (zero_of d) = false.
Proof. destruct d; reflexivity. Qed.

Lemma sum_fillna (a : Pandas.ndarray) : Pandas.sum (fillna a) = Pandas.sum a.
Proof.
  destruct a as [xs|xs|xs]; try reflexivity.
  cbn [fillna Pandas.sum]. rewrite map_map.
  do 2 f_equal. apply map_ext; intros x.
  unfold Pandas.nan_to_zero; destruct (isnan x) eqn:E; [reflexivity|].
  rewrite E; reflexivity.
Qed.

Lemma incl_included_term (records : list dict) (k : key) :
  incl (Spec.included (filter (Spec.in_term k) records)) records.
Proof.
  intros r Hr. apply filter_In in Hr; destruct Hr as [Hr _].
  apply filter_In in Hr; exact (proj1 Hr).
Qed.

(** C9, the claim as stated fails when eight or more values are
    summed.  Nine courses of one term are all included; the units of
    the first do not parse.  Its NaN enters the sums as 0.0, and moves
    the eight other weighted grades by one place in numpy's pairwise
    sum: the GWA differs in its last bit from the GWA of the eight
    courses alone. *)
Lemma uncounted_record_moves_gwa :
  Spec.included uncounted_first = uncounted_first
  /\ filter counted uncounted_first = eight_courses
  /\ match aggregate uncounted_first, aggregate eight_courses with
     | Ok (_, sem, g), Ok (_, sem', g') =>
         g = S754_finite false 7656119366529842 (-52)
         /\ g' = S754_finite false 7656119366529843 (-52)
         /\ map GWA sem = [g]
         /\ map GWA sem' = [g']
         /\ ~ Spec.same_number g
               (Spec.gwa uncounted_first
                  (filter counted (Spec.included uncounted_first)))
     | _, _ => False
     end.
Proof.
  split; [reflexivity|]. split; [reflexivity|].
  vm_compute. repeat split.
  intros [H | [H _]]; discriminate H.
Qed.

(** C9, amended.  When [aggregate] returns, a record whose course is
    not a PE or NSTP course and whose grade parses is included even
    when its units do not parse; the column of the numeric units is
    then of dtype float64, and the numeric units and the weighted grade
    of the record are NaN.  The sums take every NaN for 0.0.  Where
    fewer than eight included records are summed, the overall GWA, and
    the units and GWA of a term summary, are as numbers those computed
    from the included records whose units parse.  A term all of whose
    included records have unparseable units gets zero units, 0.0 when
    it has such a record, and the 0.0 GWA. *)
Theorem unparseable_units_are_skipped (records : list dict) (df : DataFrame)
    (sem : list TermSummary) (g : float) :
  aggregate records = Ok (df, sem, g) ->
  (forall r course,
      In r records ->
      dict_get "Course" r = Some course ->
      Spec.pe_or_nstp course = false ->
      Spec.parses (dict_get "Grade" r) = true ->
      Spec.parses (dict_get "Units" r) = false ->
      In r (Spec.included records)
      /\ Spec.units_dtype records = Pandas.float64
      /\ Spec.UnitsNumeric records [r] = Pandas.Float64 [nan]
      /\ Spec.WeightedGrade records [r] = Pandas.Float64 [nan])
  /\ bool_column "Is_Included" df = Ok (map Spec.IsIncluded records)
  /\ (List.length (Spec.included records) < 8 ->
      Spec.same_number g (Spec.gwa records (filter counted (Spec.included records))))
  /\ Forall
       (fun t =>
          let members :=
            Spec.included (filter (Spec.in_term (Year t, Semester t)) records) in
          Units t = Pandas.sum (fillna (Spec.UnitsNumeric records members))
          /\ (List.length members < 8 ->
              Spec.same_number (Pandas.to_float (Units t))
                (Pandas.to_float (Spec.total_units records (filter counted members)))
              /\ Spec.same_number (GWA t) (Spec.gwa records (filter counted members)))
          /\ ((forall r, In r members -> Spec.parses (dict_get "Units" r) = false) ->
              Units t = zero_of (Spec.units_dtype records)
              /\ (members <> [] -> Units t = Pandas.F64 zero)
              /\ GWA t = zero))
       sem.
Proof.
  intros H; apply aggregate_returns in H; destruct H as [H _].
  unfold aggregate_result in H; injection H as -> -> ->.
  split.
  { intros r course Hr Hc Hpe Hg Hu.
    pose proof (uncounted_float64 records r Hr Hu) as D.
    split; [apply filter_In; split;
            [exact Hr | apply (IsIncluded_iff r course Hc); auto]|].
    split; [exact D|].
    rewrite (units_float64 _ _ D), (weighted_float64 _ _ D).
    cbn [map]; rewrite (uncounted_nan r Hu), mul_nan; split; reflexivity. }
  split; [apply bool_column_with_computed|].
  split.
  { intros L; apply gwa_skips; [|exact L].
    intros r Hr; apply filter_In in Hr; exact (proj1 Hr). }
  rewrite Forall_forall; intros t Ht.
  apply in_map_iff in Ht; destruct Ht as (k & <- & _).
  rewrite summary_key; cbn [Spec.summary Units GWA].
  pose proof (incl_included_term records k) as Hi.
  split; [rewrite sum_fillna; reflexivity|].
  split.
  { intros L; split; [apply total_units_skips | apply gwa_skips]; assumption. }
  intros Hall; destruct (total_units_uncounted _ _ Hi Hall) as [Z Z'].
  split; [exact Z|]. split; [exact Z'|].
  unfold Spec.gwa; rewrite Z, zero_of_not_positive; reflexivity.
Qed.

Lemma unparseable_units_are_skipped_witness :
  In (record_of "CS1" "2.5" "N/A" "2024" "SECOND") (Spec.included sample)
  /\ map (fun t => (Semester t, Units t, GWA t)) sample_terms =
     [("FIRST", Pandas.F64 (of_Z 6), div (of_Z 3) (of_Z 2));
      ("SECOND", Pandas.F64 zero, zero)].
Proof.
  destruct (unparseable_units_are_skipped sample sample_frame sample_terms
              sample_gwa) as (Hin & _).
  - vm_compute; reflexivity.
  - split; [|vm_compute; reflexivity].
    apply (Hin _ "CS1"); [simpl; auto | reflexivity..].
Defined.

(** ** Dictionaries *)

Lemma dict_get_set (key k v : string) (d : dict) :
  dict_get key (dict_set k v d) =
  if String.eqb k key then Some v else dict_get key d.
Proof.
  induction d as [|[k' v'] d IH]; simpl.
  - reflexivity.
  - destruct (String.eqb k' k) eqn:E; simpl.
    + apply String.eqb_eq in E; subst k'.
      destruct (String.eqb k key); reflexivity.
    + destruct (String.eqb k' key) eqn:E'.
      * apply String.eqb_eq in E'; subst k'.
        rewrite String.eqb_sym, E; reflexivity.
      * exact IH.
Qed.

Lemma find_append {A : Type} (f : A -> bool) (l l' : list A) :
  List.find f (l ++ l') =
  match List.find f l with
  | Some x => Some x
  | None => List.find f l'
  end.
Proof.
  induction l as [|x l IH]; simpl; [reflexivity|].
  destruct (f x); [reflexivity | exact IH].
Qed.

Lemma dict_get_fold (key : string) (pairs : list (string * string)) (d : dict) :
  dict_get key (fold_left assign pairs d) =
  match last_value key pairs with
  | Some v => Some v
  | None => dict_get key d
  end.
Proof.
  unfold last_value.
  revert d; induction pairs as [|[k v] pairs IH]; intros d; simpl; [reflexivity|].
  rewrite IH, find_append.
  destruct (List.find _ (rev pairs)) as [kv|]; simpl; [reflexivity|].
  unfold assign; simpl; rewrite dict_get_set.
  destruct (String.eqb k key); reflexivity.
Qed.

Lemma dict_get_dict_of (key : string) (pairs : list (string * string)) :
  dict_get key (dict_of pairs) = last_value key pairs.
Proof.
  unfold dict_of; change (fun d kv => dict_set (fst kv) (snd kv) d) with assign.
  rewrite dict_get_fold; destruct (last_value key pairs); reflexivity.
Qed.

Lemma In_keys_dict_of (key : string) (pairs : list (string * string)) :
  In key (keys (dict_of pairs)) <-> In key (map fst pairs).
Proof.
  rewrite In_keys_dict_get, dict_get_dict_of; unfold last_value.
  split.
  - destruct (List.find _ (rev pairs)) as [kv|] eqn:E; [intros _|intros H; contradiction H; reflexivity].
    apply find_some in E; destruct E as [Hin E].
    apply String.eqb_eq in E; subst key.
    apply in_map, in_rev, Hin.
  - intros H; apply in_map_iff in H; destruct H as (kv & <- & Hkv).
    destruct (List.find _ (rev pairs)) as [kv'|] eqn:E; [discriminate|].
    apply in_rev in Hkv.
    apply (find_none _ _ E) in Hkv; rewrite String.eqb_refl in Hkv; discriminate.
Qed.

Lemma dict_set_new (k v : string) (d : dict) :
  ~ In k (keys d) -> dict_set k v d = d ++ [(k, v)].
Proof.
  induction d as [|[k' v'] d IH]; simpl; intros H; [reflexivity|].
  destruct (String.eqb k' k) eqn:E.
  - apply String.eqb_eq in E; subst; contradiction H; auto.
  - rewrite IH by auto; reflexivity.
Qed.

Lemma fold_assign_distinct (pairs : list (string * string)) (d : dict) :
  NoDup (keys d ++ map fst pairs) -> fold_left assign pairs d = d ++ pairs.
Proof.
  revert d; induction pairs as [|[k v] pairs IH]; intros d H; simpl.
  - rewrite app_nil_r; reflexivity.
  - unfold assign at 2; simpl.
    assert (Hk : ~ In k (keys d)).
    { intros Hin. apply NoDup_remove_2 in H. apply H, in_or_app; auto. }
    rewrite (dict_set_new _ _ _ Hk), IH.
    + rewrite <- app_assoc; reflexivity.
    + unfold keys; rewrite map_app, <- app_assoc; exact H.
Qed.

Lemma dict_of_distinct (pairs : list (string * string)) :
  NoDup (map fst pairs) -> dict_of pairs = pairs.
Proof. intros H; apply (fold_assign_distinct pairs []); exact H. Qed.

Lemma length_dict_set (k v : string) (d : dict) :
  List.length (dict_set k v d) <= S (List.length d).
Proof.
  induction d as [|[k' v'] d IH]; simpl; [lia|].
  destruct (String.eqb k' k); simpl; lia.
Qed.

Lemma length_dict_of (pairs : list (string * string)) :
  List.length (dict_of pairs) <= List.length pairs.
Proof.
  unfold dict_of.
  assert (G : forall d, List.length (fold_left
                (fun d kv => dict_set (fst kv) (snd kv) d) pairs d)
              <= List.length d + List.length pairs).
  { induction pairs as [|kv pairs IH]; intros d; simpl; [lia|].
    specialize (IH (dict_set (fst kv) (snd kv) d)).
    pose proof (length_dict_set (fst kv) (snd kv) d); lia. }
  apply (G []).
Qed.

(** ** The student information *)

Lemma info_row_assign (d : dict) (row : PageElement) :
  info_row d row = fold_left assign (info_entry row) d.
Proof.
  unfold info_row, info_entry.
  destruct (find_all "td" None row) as [|c0 [|c1 [|c2 l]]]; reflexivity.
Qed.

Lemma fold_assign_flat_map {A : Type} (f : A -> list (string * string))
    (l : list A) (d : dict) :
  fold_left assign (flat_map f l) d =
  fold_left (fun d x => fold_left assign (f x) d) l d.
Proof.
  revert d; induction l as [|x l IH]; intros d; simpl; [reflexivity|].
  rewrite fold_left_app; apply IH.
Qed.

Lemma contains_remove (c : ascii) (s : string) :
  Str.contains (String c EmptyString) (Str.remove c s) = false.
Proof.
  induction s as [|d s IH]; [reflexivity|].
  cbn [Str.remove].
  destruct (Ascii.eqb d c) eqn:E; [exact IH|].
  cbn [Str.contains Str.startswith].
  rewrite Ascii.eqb_sym, E, IH; reflexivity.
Qed.

Lemma remove_absent (c : ascii) (s : string) :
  Str.contains (String c EmptyString) s = false -> Str.remove c s = s.
Proof.
  induction s as [|d s IH]; [reflexivity|].
  cbn [Str.contains Str.startswith Str.remove].
  rewrite orb_false_iff, andb_false_iff; intros [[H | H] Hs].
  - rewrite Ascii.eqb_sym, H, (IH Hs); reflexivity.
  - destruct s; discriminate H.
Qed.

Lemma remove_append (c : ascii) (s t : string) :
  Str.remove c (s ++ t)%string = (Str.remove c s ++ Str.remove c t)%string.
Proof.
  induction s as [|d s IH]; simpl; [reflexivity|].
  destruct (Ascii.eqb d c); simpl; rewrite IH; reflexivity.
Qed.

(** C5, the claim as stated fails on a key that has a colon before its
    end: every colon is removed, not only the trailing one. *)
Lemma inner_colon_removed :
  Spec.strip_trailing_colon "Date:Time:" = "Date:Time"
  /\ student_info colon_key_page = [("DateTime", "noon")]
  /\ dict_get (Spec.strip_trailing_colon "Date:Time:") (student_info colon_key_page) = None.
Proof. repeat split; reflexivity. Qed.

(** C5, amended.  The student information is the dictionary obtained by
    assigning, row by row, the entry of every row of the information
    table that has exactly two cells: the stripped text of the first
    cell with every colon removed as key, the stripped text of the
    second cell as value; a row with another number of cells adds
    nothing.  The value of a key is the one of the last such row; no
    key contains a colon; a first cell reading as a colon-free label
    followed by one colon gives that label as key. *)
Theorem student_info_entries (soup info_table : PageElement) :
  find "table" (Some "form") soup = Some info_table ->
  let rows := find_all "tr" None info_table in
  student_info soup = dict_of (flat_map info_entry rows)
  /\ (forall key,
        dict_get key (student_info soup) = last_value key (flat_map info_entry rows))
  /\ (forall row c0 c1,
        In row rows -> find_all "td" None row = [c0; c1] ->
        info_entry row = [(Str.remove ":" (get_text c0), get_text c1)]
        /\ In (Str.remove ":" (get_text c0)) (keys (student_info soup)))
  /\ (forall row, In row rows -> List.length (find_all "td" None row) <> 2 ->
        info_entry row = [])
  /\ (forall key, In key (keys (student_info soup)) -> Str.contains ":" key = false)
  /\ (forall label, Str.contains ":" label = false ->
        Str.remove ":" (label ++ ":")%string = label
        /\ Str.remove ":" label = label).
Proof.
  intros Hfind rows.
  assert (E : student_info soup = dict_of (flat_map info_entry rows)).
  { unfold student_info; rewrite Hfind; unfold dict_of.
    change (fun d kv => dict_set (fst kv) (snd kv) d) with assign.
    rewrite fold_assign_flat_map.
    generalize (@nil (string * string)); fold rows.
    induction rows as [|row l IH]; intros d; simpl; [reflexivity|].
    rewrite info_row_assign; apply IH. }
  split; [exact E|].
  split; [intros key; rewrite E; apply dict_get_dict_of|].
  split.
  { intros row c0 c1 Hrow Hcols.
    assert (Ee : info_entry row = [(Str.remove ":" (get_text c0), get_text c1)])
      by (unfold info_entry; rewrite Hcols; reflexivity).
    split; [exact Ee|].
    rewrite E; apply In_keys_dict_of, in_map_iff.
    exists (Str.remove ":" (get_text c0), get_text c1); split; [reflexivity|].
    apply in_flat_map; exists row; split; [exact Hrow|].
    rewrite Ee; left; reflexivity. }
  split.
  { intros row _ Hlen; unfold info_entry.
    destruct (find_all "td" None row) as [|c0 [|c1 [|c2 l]]]; try reflexivity.
    contradiction Hlen; reflexivity. }
  split.
  { intros key Hkey; rewrite E in Hkey.
    apply (proj1 (In_keys_dict_of _ _)) in Hkey.
    apply in_map_iff in Hkey; destruct Hkey as ([k v] & <- & Hkv).
    apply in_flat_map in Hkv; destruct Hkv as (row & _ & Hkv).
    unfold info_entry in Hkv.
    destruct (find_all "td" None row) as [|c0 [|c1 [|c2 l]]];
      try contradiction Hkv.
    destruct Hkv as [[= <- _] | []]; apply contains_remove. }
  intros label Hl; rewrite remove_append, (remove_absent _ _ Hl).
  split; [|reflexivity].
  induction label as [|c label IH]; simpl; [reflexivity|].
  f_equal; apply IH.
  cbn [Str.contains] in Hl; apply orb_false_iff in Hl; apply Hl.
Qed.

Lemma student_info_entries_witness :
  student_info info_page =
    [("Name", "Juan Dela Cruz"); ("Student Number", "2021-00001")].
Proof.
  destruct (student_info_entries info_page
              (table "form"
                 [tr [td "Name:"; td " Juan Dela Cruz "];
                  tr [td "Student Number"; td "2021-00001"];
                  tr [td "Remarks"];
                  tr [td "a"; td "b"; td "c"]])) as (E & _).
  - reflexivity.
  - rewrite E; reflexivity.
Defined.

(** ** The grade records *)

Lemma fold_cells_past_headers (headers : list string) (cols : list PageElement)
    (i : nat) (d : dict) :
  List.length headers <= i ->
  fold_left (assign_cell headers) (combine (seq i (List.length cols)) cols) d = d.
Proof.
  revert i d; induction cols as [|c cols IH]; intros i d Hi; simpl; [reflexivity|].
  unfold assign_cell at 2; simpl.
  rewrite (proj2 (nth_error_None headers i) Hi).
  apply IH; lia.
Qed.

Lemma fold_cells_combine (headers : list string) (cols : list PageElement)
    (i : nat) (d : dict) :
  fold_left (assign_cell headers) (combine (seq i (List.length cols)) cols) d =
  fold_left assign (combine (skipn i headers) (map get_text cols)) d.
Proof.
  revert i d; induction cols as [|c cols IH]; intros i d.
  - simpl; destruct (skipn i headers); reflexivity.
  - cbn [List.length seq combine fold_left map].
    unfold assign_cell at 2; cbn [fst snd].
    destruct (nth_error headers i) as [h|] eqn:E.
    + assert (S : skipn i headers = h :: skipn (S i) headers).
      { clear -E; revert headers E; induction i as [|i IHi]; intros [|x l] E;
          try discriminate E.
        - injection E as ->; reflexivity.
        - apply (IHi l E). }
      rewrite S; cbn [combine fold_left]; apply IH.
    + apply nth_error_None in E.
      rewrite (skipn_all2 headers E); cbn [combine fold_left].
      apply fold_cells_past_headers; lia.
Qed.

Lemma row_data_dict_of (headers : list string) (cols : list PageElement) :
  row_data headers cols = dict_of (combine headers (map get_text cols)).
Proof.
  unfold row_data, enumerate, dict_of.
  change (fun d kv => dict_set (fst kv) (snd kv) d) with assign.
  apply (fold_cells_combine headers cols 0 []).
Qed.

Lemma keys_combine (headers texts : list string) :
  map fst (combine headers texts) = firstn (List.length texts) headers.
Proof.
  revert texts; induction headers as [|h headers IH]; intros [|t texts]; simpl;
    try reflexivity.
  rewrite IH; reflexivity.
Qed.

(** C6, the claim as stated fails under a header that repeats a name:
    three columns and five cells give a record of two keys. *)
Lemma repeated_header_two_keys :
  all_grades repeated_header_page = [[("Course", "MATH1"); ("Grade", "1.25")]]
  /\ map (@List.length (string * string)) (all_grades repeated_header_page) = [2].
Proof. split; reflexivity. Qed.

(** C6, amended.  A row without header cell and without data cell
    gives no record.  A row without header cell and with data cells
    gives one record: the dictionary built from the pairs of the column
    names and the stripped cell texts taken position by position up to
    the shorter of the two, a later pair replacing the value of an
    earlier one of the same name.  Its keys are therefore at most as
    many as the shorter length; when the column names met are pairwise
    distinct the record is exactly that list of pairs, so three distinct
    names and five cells give three keys, the two extra cells being
    dropped. *)
Theorem grade_row_zips (headers : list string) (row : PageElement) :
  find "th" None row = None ->
  let cols := find_all "td" None row in
  let texts := map get_text cols in
  (cols = [] -> grade_row headers row = [])
  /\ (cols <> [] -> grade_row headers row = [dict_of (combine headers texts)])
  /\ List.length (dict_of (combine headers texts))
     <= Nat.min (List.length headers) (List.length cols)
  /\ (NoDup (firstn (List.length cols) headers) ->
      dict_of (combine headers texts) = combine headers texts
      /\ List.length (dict_of (combine headers texts))
         = Nat.min (List.length headers) (List.length cols)).
Proof.
  intros Hth cols texts.
  assert (L : List.length (combine headers texts)
              = Nat.min (List.length headers) (List.length cols))
    by (unfold texts; rewrite length_combine, length_map; reflexivity).
  split; [intros E; unfold grade_row; fold cols; rewrite Hth, E; reflexivity|].
  split.
  { intros Hne; unfold grade_row; fold cols; rewrite Hth.
    destruct cols as [|c cols'] eqn:E; [contradiction Hne; reflexivity|].
    rewrite row_data_dict_of; reflexivity. }
  split; [rewrite <- L; apply length_dict_of|].
  intros Hd.
  assert (E : dict_of (combine headers texts) = combine headers texts).
  { apply dict_of_distinct; rewrite keys_combine.
    unfold texts; rewrite length_map; exact Hd. }
  split; [exact E | rewrite E; exact L].
Qed.

Lemma grade_row_zips_witness :
  grade_row ["Course"; "Grade"; "Units"]
    (tr [td "MATH1"; td " 1.0 "; td "3"; td "2023"; td "FIRST"]) =
    [[("Course", "MATH1"); ("Grade", "1.0"); ("Units", "3")]]
  /\ grade_row ["Course"; "Grade"; "Units"] (tr []) = [].
Proof.
  split.
  - destruct (grade_row_zips ["Course"; "Grade"; "Units"]
                (tr [td "MATH1"; td " 1.0 "; td "3"; td "2023"; td "FIRST"]))
      as (_ & E & _ & D).
    + reflexivity.
    + rewrite E by discriminate.
      destruct D as [D _]; [|rewrite D; reflexivity].
      repeat constructor; simpl; intuition discriminate.
  - apply (grade_row_zips ["Course"; "Grade"; "Units"] (tr [])); reflexivity.
Defined.

(** ** The column names *)

Lemma PageElement_induction (P : PageElement -> Prop) :
  (forall text, P (NavigableString text)) ->
  (forall name class_ contents,
      Forall P contents -> P (Tag name class_ contents)) ->
  forall el, P el.
Proof.
  intros Hs Ht; fix IH 1; intros [text | name class_ contents].
  - apply Hs.
  - apply Ht; revert contents; fix IHl 1; intros [|c contents].
    + constructor.
    + constructor; [apply IH | apply IHl].
Qed.

Lemma descendants_trans (el r x : PageElement) :
  In r (descendants el) -> In x (descendants r) -> In x (descendants el).
Proof.
  induction el as [text | name class_ contents IH] using PageElement_induction;
    [intros []|].
  cbn [descendants]; rewrite !in_flat_map.
  intros (c & Hc & Hr) Hx; exists c; split; [exact Hc|].
  destruct Hr as [<- | Hr]; [right; exact Hx|].
  right; rewrite Forall_forall in IH; apply (IH c Hc Hr Hx).
Qed.

Lemma find_all_nested (name name' : string) (el r x : PageElement) :
  In r (find_all name None el) -> In x (find_all name' None r) ->
  In x (find_all name' None el).
Proof.
  unfold find_all; rewrite !filter_In; intros [Hr _] [Hx Ht].
  split; [apply (descendants_trans el r x Hr Hx) | exact Ht].
Qed.

Lemma headers_children (name : string) (class_ : list string)
    (contents : list PageElement) :
  headers (Tag name class_ contents) =
  flat_map
    (fun c => (if is_tag "th" None c then [get_text c] else []) ++ headers c)
    contents.
Proof.
  unfold headers, find_all; cbn [descendants].
  induction contents as [|c contents IH]; [reflexivity|].
  cbn [flat_map]; rewrite filter_app, map_app, IH.
  cbn [filter]; destruct (is_tag "th" None c); reflexivity.
Qed.

(** C7, the claim as stated fails on a table with a header cell in a
    later row: that cell extends the column names, and the rows are
    read against the longer list. *)
Lemma later_header_extends :
  exists t,
    find_all "table" (Some "list") late_header_page = [t]
    /\ Spec.first_row_headers t = ["Course"; "Grade"]
    /\ headers t = ["Course"; "Grade"; "Units"]
    /\ all_grades late_header_page =
       [[("Course", "MATH1"); ("Grade", "1.0"); ("Units", "3")];
        [("Course", "CS1"); ("Grade", "2.0"); ("Units", "4")]].
Proof. eexists; repeat split; reflexivity. Qed.

(** C7, amended.  The column names of a grade table are the stripped
    texts of all the header cells below the table, in document order:
    child by child, the child itself when it is a header cell, then the
    header cells below it.  Every header cell of every row of the
    table, the first or a later one, is among them. *)
Theorem headers_from_every_row :
  (forall name class_ contents,
        headers (Tag name class_ contents) =
        flat_map
          (fun c => (if is_tag "th" None c then [get_text c] else []) ++ headers c)
          contents)
  /\ (forall table row h,
        In row (find_all "tr" None table) ->
        In h (find_all "th" None row) ->
        In (get_text h) (headers table)).
Proof.
  split; [apply headers_children|].
  intros t row h Hrow Hh; unfold headers.
  apply in_map, (find_all_nested "tr" "th" t row h Hrow Hh).
Qed.

Lemma headers_from_every_row_witness :
  In "Units"
    (headers
       (table "list"
          [tr [th "Course"; th "Grade"];
           tr [td "MATH1"; td "1.0"; td "3"];
           tr [th "Units"]])).
Proof.
  apply (proj2 headers_from_every_row _ (tr [th "Units"]) (th "Units")).
  - vm_compute; auto.
  - vm_compute; auto.
Defined.


(** * Further properties *)

Example thresholds :
  hundredths 120 = S754_finite false 5404319552844595 (-52)
  /\ hundredths 145 = S754_finite false 6530219459687219 (-52)
  /\ hundredths 175 = S754_finite false 7881299347898368 (-52).
Proof. repeat split; vm_compute; reflexivity. Qed.

(** ** The frame built from the records *)

Lemma labels_DataFrame_of (records : list dict) :
  map column_name (DataFrame_of records) = labels_of records.
Proof.
  unfold DataFrame_of; rewrite map_map; cbn [column_name]; apply map_id.
Qed.

(** X1.  A column of the frame built from the records exists exactly
    when some record has its name as a key; its cells are then the
    values of the records under that key, in the order of the records,
    with NaN where a record has no such key. *)
Theorem frame_column_of_records (records : list dict) (name : string) :
  (getitem name (DataFrame_of records) = None <->
   forall r, In r records -> dict_get name r = None)
  /\ (forall c, getitem name (DataFrame_of records) = Some c ->
      c = Extracted name (map (dict_get name) records)).
Proof.
  rewrite getitem_DataFrame_of; split.
  - rewrite <- has_label_none.
    destruct (has_label name records); split; congruence.
  - intros c; destruct (has_label name records); congruence.
Qed.

Lemma NoDup_snoc {A : Type} (l : list A) (x : A) :
  NoDup l -> ~ In x l -> NoDup (l ++ [x]).
Proof.
  induction 1 as [|y l Hy Hl IH]; simpl; intros Hx.
  - constructor; [intros [] | constructor].
  - constructor.
    + rewrite in_app_iff; simpl; intros [H | [H | []]]; [auto | subst; auto].
    + apply IH; auto.
Qed.

Lemma NoDup_add_label (labels : list string) (k : string) :
  NoDup labels -> NoDup (add_label labels k).
Proof.
  intros H; unfold add_label.
  destruct (existsb (String.eqb k) labels) eqn:E; [exact H|].
  apply NoDup_snoc; [exact H|].
  intros Hin; apply existsb_eqb_In in Hin; congruence.
Qed.

Lemma NoDup_labels_of (records : list dict) : NoDup (labels_of records).
Proof.
  unfold labels_of.
  assert (G : forall ks labels, NoDup labels -> NoDup (fold_left add_label ks labels)).
  { induction ks as [|k ks IH]; intros labels H; simpl; [exact H|].
    apply IH, NoDup_add_label, H. }
  assert (F : forall labels,
             NoDup labels ->
             NoDup (fold_left (fun labels d => fold_left add_label (keys d) labels)
                      records labels)).
  { induction records as [|d records IH]; intros labels H; simpl; [exact H|].
    apply IH, G, H. }
  apply F; constructor.
Qed.

Lemma column_length_DataFrame_of (records : list dict) :
  Forall (fun c => column_length c = List.length records) (DataFrame_of records).
Proof.
  unfold DataFrame_of; rewrite Forall_forall; intros c Hc.
  apply in_map_iff in Hc; destruct Hc as (k & <- & _).
  cbn [column_length]; apply length_map.
Qed.

(** X2.  The frame built from the records has pairwise distinct column
    names, and each of its columns has one cell per record. *)
Theorem frame_of_records_shape (records : list dict) :
  NoDup (map column_name (DataFrame_of records))
  /\ Forall (fun c => column_length c = List.length records) (DataFrame_of records).
Proof.
  split.
  - rewrite labels_DataFrame_of; apply NoDup_labels_of.
  - apply column_length_DataFrame_of.
Qed.

Lemma record_without_keys (r : dict) :
  (forall name, dict_get name r = None) <-> r = [].
Proof.
  split; [|intros ->; reflexivity].
  destruct r as [|[k v] r]; [reflexivity|].
  intros H; specialize (H k); simpl in H; rewrite String.eqb_refl in H.
  discriminate H.
Qed.

(** X3.  The guard of the user interface, [raw_df.empty], holds exactly
    when no record has any field: when no grade row was found, or when
    every row found came out as an empty record. *)
Theorem empty_frame_iff_no_field (records : list dict) :
  empty (DataFrame_of records) = true <-> forall r, In r records -> r = [].
Proof.
  unfold DataFrame_of, empty.
  destruct (labels_of records) as [|k labels] eqn:E; cbn [map column_length].
  - split; [intros _ r Hr | reflexivity].
    apply record_without_keys; intros name.
    apply (proj1 (has_label_none name records)); [|exact Hr].
    unfold has_label; rewrite E; reflexivity.
  - assert (T : has_label k records = true)
      by (unfold has_label; rewrite E; simpl; rewrite String.eqb_refl; reflexivity).
    apply has_label_iff in T; destruct T as (r & Hr & Hk).
    rewrite length_map; split.
    + destruct records; [contradiction Hr | discriminate].
    + intros H; rewrite (H r Hr) in Hk; contradiction Hk; reflexivity.
Qed.

(** ** What [calculate_gwa] raises *)

(** X4.  When [aggregate] raises, it raises either a [KeyError] that
    names one of the five columns the code reads, a column that no
    record has, or a [TypeError], and then Units, Grade and Course each
    occur in some record while some record has no Course. *)
Theorem aggregate_raises (records : list dict) (e : exn) :
  aggregate records = Raise e ->
  (exists name,
      e = KeyError name
      /\ In name source_columns
      /\ forall r, In r records -> dict_get name r = None)
  \/ (e = TypeError
      /\ (exists r, In r records /\ dict_get "Course" r = None)
      /\ forall name, In name ["Units"; "Grade"; "Course"] ->
           exists r, In r records /\ dict_get name r <> None).
Proof.
  rewrite aggregate_cases.
  destruct (has_label "Units" records) eqn:E1; cbn [negb];
    [|intros [= <-]; left; exists "Units"; split; [reflexivity|];
      split; [simpl; auto | apply has_label_none, E1]].
  destruct (has_label "Grade" records) eqn:E2; cbn [negb];
    [|intros [= <-]; left; exists "Grade"; split; [reflexivity|];
      split; [simpl; auto | apply has_label_none, E2]].
  destruct (has_label "Course" records) eqn:E3; cbn [negb];
    [|intros [= <-]; left; exists "Course"; split; [reflexivity|];
      split; [simpl; auto | apply has_label_none, E3]].
  destruct (all_courses records) eqn:E4; cbn [negb].
  - destruct (has_label "Year" records) eqn:E5; cbn [negb];
      [|intros [= <-]; left; exists "Year"; split; [reflexivity|];
        split; [simpl; auto 6 | apply has_label_none, E5]].
    destruct (has_label "Semester" records) eqn:E6; cbn [negb];
      [discriminate|].
    intros [= <-]; left; exists "Semester"; split; [reflexivity|].
    split; [simpl; auto 6 | apply has_label_none, E6].
  - intros [= <-]; right; split; [reflexivity|].
    split; [apply all_courses_false, E4|].
    intros name [<- | [<- | [<- | []]]]; apply has_label_iff; assumption.
Qed.

Lemma aggregate_raises_witness :
  aggregate no_units = Raise (KeyError "Units")
  /\ forall r, In r no_units -> dict_get "Units" r = None.
Proof.
  split; [reflexivity|].
  destruct (aggregate_raises no_units (KeyError "Units")) as [(name & E & _ & H) | (E & _)].
  - reflexivity.
  - injection E as <-; exact H.
  - discriminate E.
Defined.

(** ** The frame that [calculate_gwa] returns *)

Lemma Forall_setitem (P : column -> Prop) (c : column) (df : DataFrame) :
  P c -> Forall P df -> Forall P (setitem c df).
Proof.
  intros Hc; induction 1 as [|c' df Hc' Hdf IH]; simpl.
  - constructor; [exact Hc | constructor].
  - destruct (String.eqb (column_name c') (column_name c)); constructor; auto.
Qed.

Lemma NoDup_setitem (c : column) (df : DataFrame) :
  NoDup (map column_name df) -> NoDup (map column_name (setitem c df)).
Proof. rewrite labels_setitem; apply NoDup_add_label. Qed.

Lemma length_zip_with {A B C : Type} (f : A -> B -> C) (xs : list A) (ys : list B) :
  List.length (Pandas.zip_with f xs ys) = Nat.min (List.length xs) (List.length ys).
Proof.
  revert ys; induction xs as [|x xs IH]; intros [|y ys]; simpl; try reflexivity.
  rewrite IH; reflexivity.
Qed.

Lemma size_cast (d : Pandas.dtype) (rs : list Pandas.reading) :
  Pandas.size (Pandas.cast d rs) = List.length rs.
Proof. destruct d; simpl; apply length_map. Qed.

Lemma size_times (a b : Pandas.ndarray) :
  Pandas.size (Pandas.times a b) = Nat.min (Pandas.size a) (Pandas.size b).
Proof.
  destruct a, b; cbn [Pandas.times Pandas.size Pandas.to_floats];
    rewrite length_zip_with, ?length_map; reflexivity.
Qed.

Lemma size_units (records members : list dict) :
  Pandas.size (Spec.UnitsNumeric records members) = List.length members.
Proof. unfold Spec.UnitsNumeric; rewrite size_cast; apply length_map. Qed.

Lemma size_grades (records members : list dict) :
  Pandas.size (Spec.GradeNumeric records members) = List.length members.
Proof. unfold Spec.GradeNumeric; rewrite size_cast; apply length_map. Qed.

Lemma size_weighted (records members : list dict) :
  Pandas.size (Spec.WeightedGrade records members) = List.length members.
Proof.
  unfold Spec.WeightedGrade; rewrite size_times, size_units, size_grades.
  apply Nat.min_id.
Qed.

(** X5.  When [aggregate] returns, the frame it returns still has
    pairwise distinct column names and one cell per record in every
    column, the computed ones included. *)
Theorem processed_frame_shape (records : list dict) (df : DataFrame)
    (sem : list TermSummary) (g : float) :
  aggregate records = Ok (df, sem, g) ->
  NoDup (map column_name df)
  /\ Forall (fun c => column_length c = List.length records) df.
Proof.
  intros H; apply aggregate_returns in H; destruct H as [H _].
  unfold aggregate_result in H; injection H as -> _ _.
  unfold with_computed; split.
  - repeat apply NoDup_setitem.
    rewrite labels_DataFrame_of; apply NoDup_labels_of.
  - repeat apply Forall_setitem; cbn [column_length];
      try apply length_map; try apply size_units; try apply size_grades;
      try apply size_weighted.
    apply column_length_DataFrame_of.
Qed.

Lemma processed_frame_shape_witness :
  map column_length sample_frame = [5; 5; 5; 5; 5; 5; 5; 5; 5]%nat
  /\ NoDup (map column_name sample_frame).
Proof.
  destruct (processed_frame_shape sample sample_frame sample_terms sample_gwa)
    as [Hn _].
  - vm_compute; reflexivity.
  - split; [reflexivity | exact Hn].
Defined.

Lemma numeric_columns_with_computed I U G W (df : DataFrame) :
  numeric_column "Units_Calc" (with_computed I U G W df) = Ok U
  /\ numeric_column "Grade_Calc" (with_computed I U G W df) = Ok G
  /\ numeric_column "Weighted_Grade" (with_computed I U G W df) = Ok W.
Proof.
  unfold numeric_column, with_computed; repeat split; read_columns; reflexivity.
Qed.

Lemma existsb_none {A : Type} (p : A -> bool) (l : list A) :
  Forall (fun x => p x = false) l -> existsb p l = false.
Proof.
  induction 1 as [|x l Hx _ IH]; [reflexivity|].
  simpl; rewrite Hx, IH; reflexivity.
Qed.

Lemma dtype_of_int64 (rs : list Pandas.reading) :
  Forall (fun r => exists n x,
              r = Pandas.Whole n x
              /\ (Pandas.INT64_MIN <= n <= Pandas.INT64_MAX)%Z) rs ->
  Pandas.dtype_of rs = Pandas.int64.
Proof.
  intros H; unfold Pandas.dtype_of.
  rewrite (existsb_none (fun r => negb (Pandas.is_whole r))),
    (existsb_none Pandas.out_of_range), (existsb_none Pandas.is_uint);
    [reflexivity|..];
    (eapply Forall_impl; [|exact H]); intros r (n & x & -> & Hn);
    unfold Pandas.INT64_MIN, Pandas.INT64_MAX in Hn;
    cbn [Pandas.is_whole Pandas.out_of_range Pandas.is_uint negb];
    unfold Pandas.INT64_MIN, Pandas.INT64_MAX, Pandas.UINT64_MAX;
    try reflexivity.
  - apply andb_false_iff; left; apply Z.ltb_ge; lia.
  - apply orb_false_iff; split; apply Z.ltb_ge; lia.
Qed.

Lemma dtype_of_float64 (rs : list Pandas.reading) :
  Exists (fun r => Pandas.is_whole r = false) rs ->
  Pandas.dtype_of rs = Pandas.float64.
Proof.
  intros H; unfold Pandas.dtype_of.
  replace (existsb (fun r => negb (Pandas.is_whole r)) rs) with true;
    [reflexivity|].
  symmetry; apply existsb_exists.
  apply Exists_exists in H; destruct H as (r & Hr & E).
  exists r; split; [exact Hr | rewrite E; reflexivity].
Qed.

Lemma times_float64 (a b : Pandas.ndarray) (ws : list float) :
  Pandas.times a b = Pandas.Float64 ws ->
  ws = Pandas.zip_with mul (Pandas.to_floats a) (Pandas.to_floats b).
Proof.
  destruct a, b; cbn [Pandas.times]; intros E;
    try discriminate E; injection E as <-; reflexivity.
Qed.

Lemma unparsed_float64 (name : string) (records : list dict) (r : dict) :
  In r records -> Spec.parses (dict_get name r) = false ->
  Pandas.dtype_of (map (fun r => Pandas.read (dict_get name r)) records)
  = Pandas.float64
  /\ Pandas.read (dict_get name r) = Pandas.Null.
Proof.
  intros Hr Hp.
  assert (N : Pandas.read (dict_get name r) = Pandas.Null).
  { unfold Spec.parses in Hp.
    destruct (Pandas.read (dict_get name r)); [reflexivity | discriminate..]. }
  split; [|exact N].
  apply dtype_of_float64, Exists_exists.
  exists (Pandas.read (dict_get name r)); split; [|rewrite N; reflexivity].
  apply (in_map (fun r => Pandas.read (dict_get name r))), Hr.
Qed.

(** X6.  When [aggregate] returns, the columns of the numeric units and
    of the numeric grades are [pd.to_numeric] of the columns of strings,
    and the column of the weighted grades is their product, there for
    every record, included or not.  The dtype of a numeric column is
    decided over all the records: when every cell is spelled as an
    integer of the int64 range the column holds these integers,
    exactly; as soon as a cell is not spelled as an integer the column
    is float64, with the binary64 reading of every cell and NaN where
    the cell does not parse.  Where the product is float64, it is NaN
    as soon as the grade or the units of the record do not parse. *)
Theorem computed_columns_by_record (records : list dict) (df : DataFrame)
    (sem : list TermSummary) (g : float) :
  aggregate records = Ok (df, sem, g) ->
  let units := Pandas.to_numeric (map (dict_get "Units") records) in
  let grades := Pandas.to_numeric (map (dict_get "Grade") records) in
  numeric_column "Units_Calc" df = Ok units
  /\ numeric_column "Grade_Calc" df = Ok grades
  /\ numeric_column "Weighted_Grade" df = Ok (Pandas.times grades units)
  /\ (forall name,
        (Forall (fun r => exists n x,
                    Pandas.read (dict_get name r) = Pandas.Whole n x
                    /\ (Pandas.INT64_MIN <= n <= Pandas.INT64_MAX)%Z) records ->
         Pandas.to_numeric (map (dict_get name) records) =
         Pandas.Int64 (map (fun r => Pandas.as_int (Pandas.read (dict_get name r)))
                         records))
        /\ (Exists (fun r => Pandas.is_whole (Pandas.read (dict_get name r)) = false)
              records ->
            Pandas.to_numeric (map (dict_get name) records) =
            Pandas.Float64
              (map (fun r => Pandas.as_float (Pandas.read (dict_get name r)))
                 records)))
  /\ forall ws,
       Pandas.times grades units = Pandas.Float64 ws ->
       Forall2
         (fun r w =>
            Spec.parses (dict_get "Grade" r) = false
            \/ Spec.parses (dict_get "Units" r) = false ->
            isnan w = true)
         records ws.
Proof.
  intros H; apply aggregate_returns in H; destruct H as [H _].
  unfold aggregate_result in H; injection H as -> _ _.
  cbv zeta.
  assert (T : forall name,
             Pandas.to_numeric (map (dict_get name) records) =
             Pandas.cast
               (Pandas.dtype_of (map (fun r => Pandas.read (dict_get name r)) records))
               (map (fun r => Pandas.read (dict_get name r)) records))
    by (intros name; unfold Pandas.to_numeric; rewrite map_map; reflexivity).
  destruct (numeric_columns_with_computed (map Spec.IsIncluded records)
              (Spec.UnitsNumeric records records) (Spec.GradeNumeric records records)
              (Spec.WeightedGrade records records) (DataFrame_of records))
    as (HU & HG & HW).
  split; [rewrite T; exact HU|].
  split; [rewrite T; exact HG|].
  split; [rewrite !T; exact HW|].
  split.
  - intros name; rewrite T; split; intros F.
    + rewrite dtype_of_int64; [cbn [Pandas.cast]; rewrite map_map; reflexivity|].
      apply Forall_map; exact F.
    + rewrite dtype_of_float64; [cbn [Pandas.cast]; rewrite map_map; reflexivity|].
      apply Exists_exists in F; destruct F as (r & Hr & E).
      apply Exists_exists; exists (Pandas.read (dict_get name r)).
      split; [|exact E].
      apply (in_map (fun r => Pandas.read (dict_get name r))), Hr.
  - intros ws E; apply times_float64 in E; subst ws.
    rewrite !T, !to_floats_cast, !map_map, zip_with_map.
    apply Forall2_map_r; intros r Hr [Hp | Hp];
      destruct (unparsed_float64 _ records r Hr Hp) as [-> ->];
      cbn [float_in Pandas.as_float]; [reflexivity|].
    rewrite mul_nan; reflexivity.
Qed.

Lemma computed_columns_by_record_witness :
  numeric_column "Weighted_Grade" sample_frame
  = Ok (Pandas.Float64 [of_Z 3; of_Z 2; nan; nan; of_Z 6])
  /\ numeric_column "Units_Calc" sample_frame
    = Ok (Pandas.Float64 [of_Z 3; of_Z 2; nan; of_Z 3; of_Z 3]).
Proof.
  destruct (computed_columns_by_record sample sample_frame sample_terms sample_gwa)
    as (HU & _ & HW & _).
  - vm_compute; reflexivity.
  - rewrite HW, HU; vm_compute; split; reflexivity.
Defined.

Lemma metric_with_computed I U G W (df : DataFrame) :
  total_units_metric (with_computed I U G W df) =
  Ok (Pandas.sum (Pandas.select_array I U)).
Proof.
  unfold total_units_metric, bool_column, numeric_column, with_computed.
  read_columns; reflexivity.
Qed.

(** X7.  When [aggregate] returns, the total of academic units that the
    page shows beside the GWA is computed without error and is the sum
    of the units of the included records, the very total that decides
    the overall GWA: the quotient by it when it is positive, 0.0
    otherwise. *)
Theorem metric_is_overall_total (records : list dict) (df : DataFrame)
    (sem : list TermSummary) (g : float) :
  aggregate records = Ok (df, sem, g) ->
  exists total_units,
    total_units_metric df = Ok total_units
    /\ total_units = Spec.total_units records (Spec.included records)
    /\ g = if Pandas.positive total_units
           then Pandas.true_divide
                  (Spec.weighted_sum records (Spec.included records)) total_units
           else zero.
Proof.
  intros H; apply aggregate_returns in H; destruct H as [H _].
  unfold aggregate_result in H; injection H as -> _ ->.
  exists (Spec.total_units records (Spec.included records));
    split; [|split; reflexivity].
  rewrite metric_with_computed.
  unfold Spec.total_units, Spec.included; rewrite select_units; reflexivity.
Qed.

Lemma metric_is_overall_total_witness :
  total_units_metric sample_frame = Ok (Pandas.F64 (of_Z 6)).
Proof.
  destruct (metric_is_overall_total sample sample_frame sample_terms sample_gwa)
    as (t & Ht & E & _).
  - vm_compute; reflexivity.
  - rewrite Ht, E; vm_compute; reflexivity.
Defined.

(** ** Edge cases of the average *)

(** X8.  When [aggregate] returns, the overall GWA and the GWA of a term
    are 0.0 whenever the summed units are not strictly positive:
    negative or NaN as well as zero. *)
Theorem gwa_zero_unless_positive (records : list dict) (df : DataFrame)
    (sem : list TermSummary) (g : float) :
  aggregate records = Ok (df, sem, g) ->
  (Pandas.positive (Spec.total_units records (Spec.included records)) = false ->
   g = zero)
  /\ Forall
       (fun t => Pandas.positive (Units t) = false -> GWA t = zero)
       sem.
Proof.
  intros H; apply aggregate_returns in H; destruct H as [H _].
  unfold aggregate_result in H; injection H as _ -> ->.
  split; [unfold Spec.gwa; intros ->; reflexivity|].
  rewrite Forall_forall; intros t Ht.
  apply in_map_iff in Ht; destruct Ht as (k & <- & _).
  cbn [Spec.summary Units GWA]; unfold Spec.gwa; intros ->; reflexivity.
Qed.

Lemma gwa_zero_unless_positive_witness :
  exists df sem,
    aggregate negative_units = Ok (df, sem, zero)
    /\ map Units sem = [Pandas.I64 (-3)]
    /\ map GWA sem = [zero].
Proof.
  destruct (aggregate negative_units) as [[[df sem] g]|] eqn:E;
    [|vm_compute in E; discriminate E].
  destruct (gwa_zero_unless_positive negative_units df sem g E) as [Hg _].
  exists df, sem.
  rewrite <- Hg by (vm_compute; reflexivity).
  vm_compute in E; injection E as <- <- <-.
  repeat split; vm_compute; reflexivity.
Defined.

Lemma sum_nil (records : list dict) :
  Spec.total_units records [] = zero_of (Spec.units_dtype records).
Proof.
  unfold Spec.total_units, Spec.UnitsNumeric.
  destruct (Spec.units_dtype records); reflexivity.
Qed.

Lemma included_none (rs : list dict) :
  (forall r, In r rs -> Spec.IsIncluded r = false) -> Spec.included rs = [].
Proof.
  unfold Spec.included; induction rs as [|r rs IH]; intros H; [reflexivity|].
  simpl; rewrite (H r (or_introl eq_refl)); apply IH.
  intros r' Hr'; apply H; right; exact Hr'.
Qed.

(** X9.  When [aggregate] returns, a term all of whose records are
    excluded (PE or NSTP courses, grades that do not parse) still has
    its summary, with zero units, the zero of the dtype of the units
    column, and the 0.0 GWA. *)
Theorem excluded_term_has_zero_summary (records : list dict) (df : DataFrame)
    (sem : list TermSummary) (g : float) (k : key) :
  aggregate records = Ok (df, sem, g) ->
  (exists r, In r records /\ Spec.term r = Some k) ->
  (forall r, In r records -> Spec.term r = Some k -> Spec.IsIncluded r = false) ->
  exists t,
    In t sem /\ (Year t, Semester t) = k
    /\ Units t = zero_of (Spec.units_dtype records) /\ GWA t = zero.
Proof.
  intros H Hk Hex; apply aggregate_returns in H; destruct H as [H _].
  unfold aggregate_result in H; injection H as _ -> _.
  exists (Spec.summary records k); split.
  - apply in_map; rewrite unique_first_occurrences.
    apply In_first_occurrences, In_term_Some, Hk.
  - split; [apply summary_key|].
    assert (E : Spec.included (filter (Spec.in_term k) records) = []).
    { apply included_none; intros r Hr; apply filter_In in Hr.
      destruct Hr as [Hr Ht]; apply Hex; [exact Hr|].
      unfold Spec.in_term in Ht; destruct (Spec.term r) as [k'|]; [|discriminate].
      apply key_eqb_eq in Ht; congruence. }
    cbn [Spec.summary Units GWA]; rewrite E; split; [apply sum_nil|].
    unfold Spec.gwa; rewrite sum_nil, zero_of_not_positive; reflexivity.
Qed.

Lemma excluded_term_has_zero_summary_witness :
  exists df sem g t,
    aggregate only_pe = Ok (df, sem, g)
    /\ In t sem /\ (Year t, Semester t) = ("2023", "SECOND")
    /\ Units t = Pandas.I64 0 /\ GWA t = zero.
Proof.
  destruct (aggregate only_pe) as [[[df sem] g]|] eqn:E;
    [|vm_compute in E; discriminate E].
  destruct (excluded_term_has_zero_summary only_pe df sem g ("2023", "SECOND") E)
    as (t & Ht).
  - exists (record_of "PE2" "1.0" "2" "2023" "SECOND"); split;
      [simpl; auto | reflexivity].
  - intros r [<- | [<- | [<- | []]]]; intros T; try discriminate T; reflexivity.
  - exists df, sem, g, t; split; [reflexivity | exact Ht].
Defined.

Lemma first_occurrences_none (ks : list (option key)) :
  (forall k, In k ks -> k = None) -> Spec.first_occurrences ks = [].
Proof.
  induction ks as [|[k|] ks IH]; intros H; [reflexivity| |].
  - discriminate (H (Some k) (or_introl eq_refl)).
  - simpl; apply IH; intros k Hk; apply H; right; exact Hk.
Qed.

(** X10.  The records that lack a year or a semester enter no term but
    still count in the overall GWA: when [aggregate] returns and no
    record has both a year and a semester, there is no term summary at
    all, while the overall GWA is the average over all the included
    records. *)
Theorem records_without_term (records : list dict) (df : DataFrame)
    (sem : list TermSummary) (g : float) :
  aggregate records = Ok (df, sem, g) ->
  (forall r, In r records -> dict_get "Year" r = None \/ dict_get "Semester" r = None) ->
  sem = [] /\ g = Spec.gwa records (Spec.included records).
Proof.
  intros H Hno; apply aggregate_returns in H; destruct H as [H _].
  unfold aggregate_result in H; injection H as _ -> ->.
  split; [|reflexivity].
  rewrite unique_first_occurrences, first_occurrences_none; [reflexivity|].
  intros k Hk; apply in_map_iff in Hk; destruct Hk as (r & <- & Hr).
  unfold Spec.term, row_key.
  destruct (Hno r Hr) as [-> | ->]; [reflexivity|].
  destruct (dict_get "Year" r); reflexivity.
Qed.

Lemma records_without_term_witness :
  exists df, aggregate split_terms = Ok (df, [], of_Z 2).
Proof.
  destruct (aggregate split_terms) as [[[df sem] g]|] eqn:E;
    [|vm_compute in E; discriminate E].
  destruct (records_without_term split_terms df sem g E) as [-> ->].
  - intros r [<- | [<- | []]]; [right | left]; reflexivity.
  - exists df; vm_compute; reflexivity.
Defined.

Lemma first_occurrences_single (k : key) (ks : list (option key)) :
  ks <> [] -> (forall rk, In rk ks -> rk = Some k) ->
  Spec.first_occurrences ks = [k].
Proof.
  induction ks as [|rk ks IH]; intros Hne H; [contradiction Hne; reflexivity|].
  rewrite (H rk (or_introl eq_refl)); simpl; f_equal.
  destruct ks as [|rk' ks']; [reflexivity|].
  rewrite IH; [|discriminate|intros x Hx; apply H; right; exact Hx].
  simpl; rewrite key_eqb_refl; reflexivity.
Qed.

(** X11.  When [aggregate] returns and all the records belong to one
    and the same term, there is exactly one term summary, and its GWA
    is the overall GWA. *)
Theorem single_term_is_overall (records : list dict) (df : DataFrame)
    (sem : list TermSummary) (g : float) (k : key) :
  aggregate records = Ok (df, sem, g) ->
  (forall r, In r records -> Spec.term r = Some k) ->
  exists t,
    sem = [t] /\ (Year t, Semester t) = k /\ GWA t = g
    /\ Units t = Spec.total_units records (Spec.included records).
Proof.
  intros H Hk.
  assert (Hne : records <> []).
  { intros ->; discriminate H. }
  apply aggregate_returns in H; destruct H as [H _].
  unfold aggregate_result in H; injection H as _ -> ->.
  exists (Spec.summary records k).
  rewrite unique_first_occurrences, (first_occurrences_single k).
  - split; [reflexivity|]. split; [apply summary_key|].
    cbn [Spec.summary Units GWA].
    rewrite filter_all; [split; reflexivity|].
    intros r Hr; unfold Spec.in_term; rewrite (Hk r Hr); apply key_eqb_refl.
  - destruct records; [contradiction Hne; reflexivity | discriminate].
  - intros rk Hrk; apply in_map_iff in Hrk; destruct Hrk as (r & <- & Hr).
    apply Hk, Hr.
Qed.

Lemma single_term_is_overall_witness :
  exists df t g, aggregate one_term = Ok (df, [t], g) /\ GWA t = g.
Proof.
  destruct (aggregate one_term) as [[[df sem] g]|] eqn:E;
    [|vm_compute in E; discriminate E].
  destruct (single_term_is_overall one_term df sem g ("2023", "FIRST") E)
    as (t & -> & _ & Hg & _).
  - intros r [<- | [<- | []]]; reflexivity.
  - exists df, t, g; split; [reflexivity | exact Hg].
Defined.

(** ** What the averages do not read *)

Lemma map_filter_related {A B : Type} (R : A -> A -> Prop) (p : A -> bool)
    (f : A -> B) (l l' : list A) :
  (forall x y, R x y -> p x = p y /\ (p x = true -> f x = f y)) ->
  Forall2 R l l' ->
  map f (filter p l) = map f (filter p l').
Proof.
  intros H; induction 1 as [|x y l l' Hxy Hl IH]; [reflexivity|].
  destruct (H x y Hxy) as [Hp Hf]; simpl; rewrite <- Hp.
  destruct (p x); simpl; [rewrite (Hf eq_refl)|]; rewrite IH; reflexivity.
Qed.

Lemma same_for_gwa_included (r r' : dict) :
  same_for_gwa r r' -> Spec.IsIncluded r = Spec.IsIncluded r'.
Proof.
  intros (Hc & Hg & _); unfold Spec.IsIncluded; rewrite Hc, Hg; reflexivity.
Qed.

Lemma same_for_gwa_term (r r' : dict) :
  same_for_gwa r r' -> Spec.term r = Spec.term r'.
Proof.
  intros (_ & _ & Hy & Hs & _); unfold Spec.term; rewrite Hy, Hs; reflexivity.
Qed.

Lemma same_for_gwa_members (k : key) (r r' : dict) :
  same_for_gwa r r' ->
  let p := fun x => Spec.in_term k x && Spec.IsIncluded x in
  p r = p r'
  /\ (p r = true ->
      Spec.units_reading r = Spec.units_reading r'
      /\ Spec.grade_reading r = Spec.grade_reading r').
Proof.
  intros H; cbv zeta; unfold Spec.in_term.
  rewrite (same_for_gwa_included r r' H), (same_for_gwa_term r r' H).
  split; [reflexivity|].
  rewrite andb_true_iff, <- (same_for_gwa_included r r' H); intros [_ Hi].
  destruct H as (_ & Hg & _ & _ & Hu).
  unfold Spec.units_reading, Spec.grade_reading.
  rewrite Hg, (Hu Hi); split; reflexivity.
Qed.

Lemma grade_dtype_related (rs rs' : list dict) :
  Forall2 same_for_gwa rs rs' -> Spec.grade_dtype rs = Spec.grade_dtype rs'.
Proof.
  intros H; unfold Spec.grade_dtype; f_equal.
  induction H as [|x y l l' Hxy Hl IH]; [reflexivity|].
  simpl; rewrite IH; f_equal.
  destruct Hxy as (_ & Hg & _); unfold Spec.grade_reading; rewrite Hg; reflexivity.
Qed.

Lemma summary_related (rs rs' : list dict) (k : key) :
  Forall2 same_for_gwa rs rs' ->
  Spec.units_dtype rs = Spec.units_dtype rs' ->
  Spec.summary rs k = Spec.summary rs' k.
Proof.
  intros H D; unfold Spec.summary, Spec.gwa, Spec.total_units, Spec.weighted_sum,
    Spec.WeightedGrade, Spec.UnitsNumeric, Spec.GradeNumeric, Spec.included.
  rewrite !filter_filter, D, (grade_dtype_related rs rs' H).
  rewrite (map_filter_related same_for_gwa _ Spec.units_reading rs rs');
    [|intros x y Hxy; destruct (same_for_gwa_members k x y Hxy) as [Hp Hf];
      split; [exact Hp | intros T; apply Hf, T] | exact H].
  rewrite (map_filter_related same_for_gwa _ Spec.grade_reading rs rs');
    [|intros x y Hxy; destruct (same_for_gwa_members k x y Hxy) as [Hp Hf];
      split; [exact Hp | intros T; apply Hf, T] | exact H].
  reflexivity.
Qed.

Lemma terms_related (rs rs' : list dict) :
  Forall2 same_for_gwa rs rs' -> map Spec.term rs = map Spec.term rs'.
Proof.
  induction 1 as [|x y l l' Hxy Hl IH]; [reflexivity|].
  simpl; rewrite IH, (same_for_gwa_term x y Hxy); reflexivity.
Qed.

(** The units of an excluded record do decide the dtype of the units
    column: with 2.5 units for the PE course of the specification's
    example, the units of the term are the float 3.0 and no longer the
    integer 3. *)
Example excluded_units_set_the_dtype :
  match aggregate [record_of "MATH1" "1.0" "3" "2023" "FIRST";
                   record_of "PE1" "1.0" "2.5" "2023" "FIRST"] with
  | Ok (_, sem, _) => map Units sem = [Pandas.F64 (of_Z 3)]
  | Raise _ => False
  end.
Proof. vm_compute; reflexivity. Qed.

(** X12.  The term summaries and the overall GWA read nothing but the
    course, grade, year and semester of every record, the units of the
    included ones and the dtype of the units column: two record
    sequences that agree on these, record by record, whose units
    columns have the same dtype and on which [aggregate] returns, get
    the same term summaries and the same overall GWA, whatever their
    other columns and the units of their excluded records. *)
Theorem gwa_reads_only_relevant_fields (rs rs' : list dict)
    (df df' : DataFrame) (sem sem' : list TermSummary) (g g' : float) :
  Forall2 same_for_gwa rs rs' ->
  Spec.units_dtype rs = Spec.units_dtype rs' ->
  aggregate rs = Ok (df, sem, g) ->
  aggregate rs' = Ok (df', sem', g') ->
  sem = sem' /\ g = g'.
Proof.
  intros HR D H H'.
  apply aggregate_returns in H; destruct H as [H _].
  apply aggregate_returns in H'; destruct H' as [H' _].
  unfold aggregate_result in H, H'.
  injection H as _ -> ->; injection H' as _ -> ->.
  rewrite (terms_related rs rs' HR); split.
  - apply map_ext; intros k; apply summary_related; assumption.
  - unfold Spec.gwa, Spec.total_units, Spec.weighted_sum, Spec.WeightedGrade,
      Spec.UnitsNumeric, Spec.GradeNumeric, Spec.included.
    rewrite D, (grade_dtype_related rs rs' HR).
    assert (E : forall (f : dict -> Pandas.reading),
               (forall x y, same_for_gwa x y -> Spec.IsIncluded x = true -> f x = f y) ->
               map f (filter Spec.IsIncluded rs) = map f (filter Spec.IsIncluded rs')).
    { intros f Hf; apply (map_filter_related same_for_gwa); [|exact HR].
      intros x y Hxy; split; [apply same_for_gwa_included, Hxy | apply Hf, Hxy]. }
    assert (EU : forall x y, same_for_gwa x y -> Spec.IsIncluded x = true ->
                 Spec.units_reading x = Spec.units_reading y).
    { intros x y (_ & _ & _ & _ & Hu) Hi; unfold Spec.units_reading.
      rewrite (Hu Hi); reflexivity. }
    assert (EG : forall x y, same_for_gwa x y -> Spec.IsIncluded x = true ->
                 Spec.grade_reading x = Spec.grade_reading y).
    { intros x y (_ & Hg & _) _; unfold Spec.grade_reading.
      rewrite Hg; reflexivity. }
    rewrite (E _ EU), (E _ EG); reflexivity.
Qed.

Lemma gwa_reads_only_relevant_fields_witness :
  exists df', aggregate sample_other_units = Ok (df', sample_terms, sample_gwa).
Proof.
  destruct (aggregate sample_other_units) as [[[df' sem'] g']|] eqn:E;
    [|vm_compute in E; discriminate E].
  destruct (gwa_reads_only_relevant_fields sample sample_other_units
              sample_frame df' sample_terms sem' sample_gwa g') as [<- <-].
  - repeat constructor; try reflexivity; intros T; try discriminate T; reflexivity.
  - vm_compute; reflexivity.
  - vm_compute; reflexivity.
  - exact E.
  - exists df'; reflexivity.
Defined.

(** ** The standing *)

Lemma leb_trans (x y z : float) :
  leb x y = true -> leb y z = true -> leb x z = true.
Proof.
  unfold leb, SFleb.
  destruct x as [sx|sx| |sx mx ex], y as [sy|sy| |sy my ey],
    z as [sz|sz| |sz mz ez]; cbn [SFcompare];
    try discriminate; try reflexivity;
    try (destruct sx, sy, sz; simpl; intros; (discriminate || reflexivity)).
  all: try (destruct sx, sy; simpl; intros; (discriminate || reflexivity)).
  all: try (destruct sy, sz; simpl; intros; (discriminate || reflexivity)).
  all: try (destruct sx, sz; simpl; intros; (discriminate || reflexivity)).
  change (PosDef.Pos.compare_cont Eq mx my) with (Pos.compare mx my).
  change (PosDef.Pos.compare_cont Eq my mz) with (Pos.compare my mz).
  change (PosDef.Pos.compare_cont Eq mx mz) with (Pos.compare mx mz).
  destruct sx, sy, sz; try discriminate; try reflexivity;
    destruct (Z.compare_spec ex ey), (Z.compare_spec ey ez),
      (Z.compare_spec ex ez); try discriminate; try reflexivity; try lia;
    destruct (Pos.compare_spec mx my), (Pos.compare_spec my mz),
      (Pos.compare_spec mx mz); simpl; try discriminate; try reflexivity;
    try lia.
Qed.

(** X13.  A better GWA never gives a worse standing: when [x <= y], [x]
    stands Summa if [y] does, Summa or Magna if [y] does, and [x] is in
    good standing only if [y] is. *)
Theorem standing_monotone (x y : float) :
  leb x y = true ->
  (standing y = "Summa Cum Laude Standing" ->
   standing x = "Summa Cum Laude Standing")
  /\ (standing y = "Summa Cum Laude Standing"
      \/ standing y = "Magna Cum Laude Standing" ->
      standing x = "Summa Cum Laude Standing"
      \/ standing x = "Magna Cum Laude Standing")
  /\ (standing x = "Good Standing" -> standing y = "Good Standing").
Proof.
  intros H; unfold standing.
  destruct (leb y (hundredths 120)) eqn:Y1.
  { rewrite (leb_trans x y _ H Y1); repeat split; auto; discriminate. }
  destruct (leb y (hundredths 145)) eqn:Y2.
  { rewrite (leb_trans x y _ H Y2).
    destruct (leb x (hundredths 120)); repeat split; auto; discriminate. }
  destruct (leb y (hundredths 175)) eqn:Y3.
  { rewrite (leb_trans x y _ H Y3).
    destruct (leb x (hundredths 120)), (leb x (hundredths 145));
      repeat split; try discriminate; intros [T | T]; discriminate T. }
  destruct (leb x (hundredths 120)), (leb x (hundredths 145)),
    (leb x (hundredths 175)); repeat split; try discriminate; auto;
    intros [T | T]; discriminate T.
Qed.

Lemma standing_monotone_witness :
  standing (of_Z 1) = "Summa Cum Laude Standing".
Proof.
  apply (proj1 (standing_monotone (of_Z 1) (hundredths 120) eq_refl)).
  reflexivity.
Defined.

(** X14.  When the included records carry no positive total of units
    (no included record at all, or only units that do not parse),
    [calculate_gwa] hands 0.0 to the page, and the page then shows the
    best standing, Summa Cum Laude. *)
Theorem no_units_stand_summa (records : list dict) (df : DataFrame)
    (sem : list TermSummary) (g : float) :
  aggregate records = Ok (df, sem, g) ->
  Pandas.positive (Spec.total_units records (Spec.included records)) = false ->
  g = zero /\ standing g = "Summa Cum Laude Standing".
Proof.
  intros H Hz; apply aggregate_returns in H; destruct H as [H _].
  unfold aggregate_result in H; injection H as _ _ ->.
  unfold Spec.gwa; rewrite Hz; split; reflexivity.
Qed.

Lemma no_units_stand_summa_witness :
  exists df sem g,
    aggregate ungraded = Ok (df, sem, g)
    /\ standing g = "Summa Cum Laude Standing".
Proof.
  destruct (aggregate ungraded) as [[[df sem] g]|] eqn:E;
    [|vm_compute in E; discriminate E].
  exists df, sem, g; split; [reflexivity|].
  apply (no_units_stand_summa ungraded df sem g E).
  vm_compute; reflexivity.
Defined.

(** ** The history table *)

Lemma object_column_inv (name : string) (df : DataFrame) (values : list (option string)) :
  object_column name df = Ok values ->
  getitem name df = Some (Extracted name values).
Proof.
  unfold object_column; destruct (getitem name df) as [c|] eqn:E; [|discriminate].
  assert (N : column_name c = name).
  { unfold getitem in E; apply find_some in E; apply String.eqb_eq, E. }
  destruct c; try discriminate; cbn [column_name] in N; subst.
  intros [= ->]; reflexivity.
Qed.

(** X15.  When [calculate_gwa] returns, each of the five columns of the
    history table, Course, Grade, Units, Year and Semester, is present
    in the returned frame and is the column of strings of the frame
    that was given, untouched by the numeric readings. *)
Theorem display_columns_kept (df df' : DataFrame) (sem : list TermSummary)
    (g : float) :
  calculate_gwa df = Ok (df', sem, g) ->
  forall name, In name display_cols ->
    exists values,
      getitem name df = Some (Extracted name values)
      /\ getitem name df' = Some (Extracted name values).
Proof.
  intros H name Hn; apply calculate_gwa_returns in H.
  destruct H as (units & grade & course & not_pe & year & semester
                 & Hu & Hg & Hc & _ & Hy & Hs & H).
  cbv zeta in H; destruct H as (-> & _ & _).
  assert (K : ~ In name computed_columns).
  { simpl in Hn; destruct Hn as [<- | [<- | [<- | [<- | [<- | []]]]]];
      simpl; intros [T | [T | [T | [T | []]]]]; discriminate T. }
  rewrite (getitem_with_computed name _ _ _ _ df K).
  simpl in Hn; destruct Hn as [<- | [<- | [<- | [<- | [<- | []]]]]];
    eexists; split; try reflexivity; apply object_column_inv; eassumption.
Qed.

Lemma display_columns_kept_witness :
  getitem "Units" sample_frame
  = Some (Extracted "Units" [Some "3"; Some "2"; Some "N/A"; Some "3"; Some "3"]).
Proof.
  destruct (display_columns_kept (DataFrame_of sample) sample_frame sample_terms
              sample_gwa) with (name := "Units") as (values & H & H').
  - vm_compute; reflexivity.
  - simpl; auto.
  - rewrite H'; vm_compute in H; injection H as <-; reflexivity.
Defined.

(** ** From the document to the averages *)

Lemma row_data_keys (headers : list string) (cols : list PageElement)
    (name : string) :
  In name (keys (row_data headers cols)) -> In name headers.
Proof.
  rewrite row_data_dict_of; intros H.
  apply (proj1 (In_keys_dict_of _ _)) in H.
  apply in_map_iff in H; destruct H as ([k v] & <- & H).
  apply in_combine_l in H; exact H.
Qed.

Lemma grade_table_keys (t : PageElement) (r : dict) (name : string) :
  In r (grade_table t) -> In name (keys r) -> In name (headers t).
Proof.
  unfold grade_table; rewrite in_flat_map; intros (row & _ & Hr).
  unfold grade_row in Hr.
  destruct (find "th" None row); [contradiction Hr|].
  destruct (find_all "td" None row) as [|c cols]; [contradiction Hr|].
  destruct Hr as [<- | []]; apply row_data_keys.
Qed.

(** X16.  Every key of every record read from the document is the
    stripped text of a header cell of the grade table the record comes
    from.  Hence [calculate_gwa] can return on the parsed document only
    if, for each of Units, Grade, Course, Year and Semester, some grade
    table has a header cell reading exactly that name. *)
Theorem columns_come_from_headers (soup : PageElement) :
  (forall r,
      In r (all_grades soup) ->
      exists t,
        In t (find_all "table" (Some "list") soup)
        /\ In r (grade_table t)
        /\ forall name, In name (keys r) -> In name (headers t))
  /\ (forall r, calculate_gwa (snd (parse_csrs_file soup)) = Ok r ->
      forall name, In name source_columns ->
        exists t, In t (find_all "table" (Some "list") soup) /\ In name (headers t)).
Proof.
  assert (K : forall r,
             In r (all_grades soup) ->
             exists t, In t (find_all "table" (Some "list") soup)
                       /\ In r (grade_table t)
                       /\ forall name, In name (keys r) -> In name (headers t)).
  { intros r Hr; unfold all_grades in Hr.
    apply in_flat_map in Hr; destruct Hr as (t & Ht & Hr).
    exists t; split; [exact Ht|]. split; [exact Hr|].
    intros name Hn; apply (grade_table_keys t r name Hr Hn). }
  split; [exact K|].
  intros r H name Hn; cbn [parse_csrs_file snd] in H.
  apply (aggregate_returns_labels _ _ name H) in Hn.
  apply has_label_iff in Hn; destruct Hn as (d & Hd & Hk).
  destruct (K d Hd) as (t & Ht & _ & Hh).
  exists t; split; [exact Ht | apply Hh, In_keys_dict_get, Hk].
Qed.

(** X17.  The grade records of a document are gathered child by child
    in document order: for each child, the records of the child itself
    when it is a grade table, then those found below it.  A grade table
    nested in another is found as well, and its rows and header cells
    are also rows and header cells of the enclosing table, which reads
    them again. *)
Theorem all_grades_in_document_order :
  (forall name class_ contents,
      all_grades (Tag name class_ contents) =
      flat_map
        (fun c => (if is_list_table c then grade_table c else []) ++ all_grades c)
        contents)
  /\ (forall soup outer inner,
        In outer (find_all "table" (Some "list") soup) ->
        In inner (find_all "table" (Some "list") outer) ->
        In inner (find_all "table" (Some "list") soup)
        /\ incl (find_all "tr" None inner) (find_all "tr" None outer)
        /\ incl (headers inner) (headers outer)).
Proof.
  split.
  - intros name class_ contents; unfold all_grades, find_all; cbn [descendants].
    induction contents as [|c contents IH]; [reflexivity|].
    cbn [flat_map]; rewrite filter_app, flat_map_app, IH.
    cbn [filter]; fold (is_list_table c).
    destruct (is_list_table c); cbn [flat_map];
      rewrite <- ?app_assoc; reflexivity.
  - intros soup outer inner Ho Hi.
    unfold find_all in Ho, Hi; apply filter_In in Ho, Hi.
    destruct Ho as [Ho _], Hi as [Hi Ti].
    split; [apply filter_In; split;
            [apply (descendants_trans soup outer inner Ho Hi) | exact Ti]|].
    split.
    + intros row Hr; unfold find_all in *; apply filter_In in Hr.
      destruct Hr as [Hr Tr]; apply filter_In; split; [|exact Tr].
      apply (descendants_trans outer inner row Hi Hr).
    + intros h Hh; unfold headers, find_all in *.
      apply in_map_iff in Hh; destruct Hh as (el & <- & Hel).
      apply filter_In in Hel; destruct Hel as [Hel Tel].
      apply in_map, filter_In; split; [|exact Tel].
      apply (descendants_trans outer inner el Hi Hel).
Qed.

Lemma all_grades_in_document_order_witness :
  all_grades nested_page =
    [[("Course", "MATH1")];
     [("Course", "CS1"); ("Grade", "2.0")];
     [("Grade", "CS1")]].
Proof.
  unfold nested_page, document.
  rewrite (proj1 all_grades_in_document_order); reflexivity.
Defined.

Lemma columns_come_from_headers_witness :
  exists t,
    In t (find_all "table" (Some "list") transcript_page) /\ In "Units" (headers t).
Proof.
  destruct (calculate_gwa (snd (parse_csrs_file transcript_page))) as [r|] eqn:E;
    [|vm_compute in E; discriminate E].
  apply (proj2 (columns_come_from_headers transcript_page) r E "Units").
  simpl; auto.
Defined.

(** ** The sidebar *)





(** ** The label of a term *)

Lemma startswith_iff (p s : string) :
  Str.startswith p s = true <-> exists post, s = (p ++ post)%string.
Proof.
  revert s; induction p as [|a p IH]; intros s; simpl.
  - split; [intros _; exists s; reflexivity | reflexivity].
  - destruct s as [|b s].
    + split; [discriminate | intros [post H]; discriminate H].
    + rewrite andb_true_iff, Ascii.eqb_eq, IH; split.
      * intros [-> [post ->]]; exists post; reflexivity.
      * intros [post [= -> ->]]; split; [reflexivity | exists post; reflexivity].
Qed.

Lemma contains_iff (sub s : string) :
  Str.contains sub s = true <-> substring sub s.
Proof.
  unfold substring; induction s as [|c s IH].
  - cbn [Str.contains]; rewrite orb_false_r, startswith_iff; split.
    + intros [post H]; exists "", post; exact H.
    + intros (pre & post & H); destruct pre; [exists post; exact H | discriminate H].
  - cbn [Str.contains]; rewrite orb_true_iff, startswith_iff, IH; split.
    + intros [[post H] | (pre & post & H)].
      * exists "", post; exact H.
      * exists (String c pre), post; rewrite H; reflexivity.
    + intros (pre & post & H); destruct pre as [|a pre].
      * left; exists post; exact H.
      * right; injection H as _ H; exists pre, post; exact H.
Qed.

(** X19.  When [aggregate] returns, the label of every term summary is
    its year, a space and a short name of the semester: 1st Sem exactly
    when the semester contains FIRST in capitals, also when it contains
    SECOND as well; 2nd Sem exactly when it contains SECOND and not
    FIRST; Midsem in every other case. *)
Theorem term_label_by_semester (records : list dict) (df : DataFrame)
    (sem : list TermSummary) (g : float) :
  aggregate records = Ok (df, sem, g) ->
  Forall
    (fun t =>
       exists short,
         Term t = (Year t ++ " " ++ short)%string
         /\ (short = "1st Sem" <-> substring "FIRST" (Semester t))
         /\ (short = "2nd Sem" <->
             substring "SECOND" (Semester t) /\ ~ substring "FIRST" (Semester t))
         /\ (short = "Midsem" <->
             ~ substring "FIRST" (Semester t) /\ ~ substring "SECOND" (Semester t)))
    sem.
Proof.
  intros H; apply aggregate_returns in H; destruct H as [H _].
  unfold aggregate_result in H; injection H as _ -> _.
  rewrite Forall_forall; intros t Ht.
  apply in_map_iff in Ht; destruct Ht as ([y s] & <- & _).
  cbn [Spec.summary Year Semester Term fst snd].
  exists (short_sem s); split; [reflexivity|].
  unfold short_sem; rewrite <- !contains_iff.
  destruct (Str.contains "FIRST" s), (Str.contains "SECOND" s);
    repeat split; try discriminate; try reflexivity;
    try (intros [T T']; congruence); try (intros _; discriminate);
    intros T; try discriminate T; try (split; discriminate); contradiction.
Qed.

Lemma term_label_by_semester_witness :
  Forall (fun t => exists short, Term t = (Year t ++ " " ++ short)%string)
    sample_terms.
Proof.
  eapply Forall_impl;
    [|apply (term_label_by_semester sample sample_frame sample_terms sample_gwa);
      vm_compute; reflexivity].
  intros t (short & E & _); exists short; exact E.
Defined.
